(** * Dataset example assembly: GuitarSet and Slakh2100

    A shallow embedding of
      - [src/audio_understanding/datasets/guitarset.py] and
      - [src/audio_understanding/datasets/slakh2100.py].

    The two classes are glue around external collaborators (librosa,
    pandas, PyYAML, audidata, the [random] module).  The collaborators are
    gathered in a record [Env]; the methods of the two classes are
    translated statement by statement into a small state-and-exception
    monad whose state is the process-global random generator together with
    the log of the external calls made so far. *)

From Stdlib Require Import ZArith NArith String List Floats Lia.
From stdpp Require Import gmap strings list fin_maps.
From stdpp Require Import sorting.

Set Warnings "-register-all".
Open Scope string_scope.

(** ** Python values *)

(** Exceptions that the modelled code can raise. *)
Inductive exn :=
| KeyError (key : string)
| KeyErrorBool (key : bool)
| IndexError
| TypeError
| AttributeError
| ExternalError (msg : string).

Inductive result (A : Type) :=
| Ok (a : A)
| Raise (e : exn).
Arguments Ok {A} a.
Arguments Raise {A} e.

(** A note or a sustain-pedal interval.  Pedal intervals have the shape of
    a note without pitch and velocity. *)
Record Event := mkEvent {
  onset : float;
  offset : float;
  pitch : option Z;
  velocity : option Z
}.

(** A numpy array of shape (channels, samples) or (frames, pitches). *)
Definition ndarray := list (list float).

(** A loaded YAML document. A mapping holds the items of the loaded [dict]
    in insertion order, with distinct string keys. *)
Inductive yaml :=
| YNull
| YBool (b : bool)
| YInt (z : Z)
| YFloat (f : float)
| YStr (s : string)
| YSeq (l : list yaml)
| YMap (items : list (string * yaml)).

(** Python truthiness of a float: everything but +0.0 and -0.0. *)
Definition float_truthy (f : float) : bool := negb (PrimFloat.eqb f 0%float).

(** Python truthiness of a loaded YAML value. *)
Definition truthy (y : yaml) : bool :=
  match y with
  | YNull => false
  | YBool b => b
  | YInt z => negb (Z.eqb z 0)
  | YFloat f => float_truthy f
  | YStr s => negb (String.eqb s "")
  | YSeq l => match l with [] => false | _ => true end
  | YMap items => match items with [] => false | _ => true end
  end.

Fixpoint assoc (k : string) (items : list (string * yaml)) : option yaml :=
  match items with
  | [] => None
  | (k', v) :: rest => if String.eqb k k' then Some v else assoc k rest
  end.

(** [y[k]] for a string key [k]. *)
Definition yaml_getitem (y : yaml) (k : string) : result yaml :=
  match y with
  | YMap items =>
      match assoc k items with
      | Some v => Ok v
      | None => Raise (KeyError k)
      end
  | _ => Raise TypeError
  end.

(** [y.items()]. *)
Definition yaml_items (y : yaml) : result (list (string * yaml)) :=
  match y with
  | YMap items => Ok items
  | _ => Raise AttributeError
  end.

(** The per-track dict built by [Slakh2100.load_target_data]. *)
Record Track := mkTrack {
  track_name : string;
  inst_class : yaml;
  is_drum : yaml;
  plugin_name : yaml;
  program_num : yaml;
  note : list Event;
  pedal : list Event
}.

(** Values stored in the example dicts. *)
Inductive value :=
| VNone
| VFloat (f : float)
| VStr (s : string)
| VArray (a : ndarray)
| VEvents (l : list Event)
| VFloats (l : list float)
| VTracks (l : list Track).

(** A Python [dict] with string keys. [dict.update] is [dict_update]. *)
Abbreviation dict := (gmap string value).

Definition dict_update (d other : dict) : dict := other ∪ d.

(** [l[i]] on a Python list, negative indices included. *)
Definition py_index {A : Type} (l : list A) (i : Z) : result A :=
  let n := Z.of_nat (length l) in
  let j := if (i <? 0)%Z then (n + i)%Z else i in
  if ((0 <=? j)%Z && (j <? n)%Z)%bool then
    match nth_error l (Z.to_nat j) with
    | Some x => Ok x
    | None => Raise IndexError
    end
  else Raise IndexError.

(** [Path(p1, ..., pn)] rendered with [str].  The model covers the paths
    this program builds from plain names: segments that are not empty, do
    not start with a separator and hold no separator or dot segment, for
    which [pathlib] joins with one [/] and normalises nothing. *)
Definition Path (parts : list string) : string := String.concat "/" parts.

(** ** pandas *)

(** A column of text cells.  A frame of the model holds the cells that
    pandas read as [str] objects; numbers and missing values ([NaN]) are
    outside it. *)
Record Series := mkSeries {
  series_name : string;
  values : list string
}.

(** A table as [pandas.read_csv] builds it: string column labels and a
    range index over the rows. *)
Record DataFrame := mkDataFrame {
  columns : list string;
  rows : list (list string)
}.

Inductive pandas_obj :=
| PFrame (df : DataFrame)
| PSeries (s : Series).

(** A scalar used as the key of [obj[key]]. *)
Inductive pykey :=
| KStr (s : string)
| KBool (b : bool).

Definition key_error (key : pykey) : exn :=
  match key with
  | KStr s => KeyError s
  | KBool b => KeyErrorBool b
  end.

Fixpoint index_of (name : string) (cols : list string) : option nat :=
  match cols with
  | [] => None
  | c :: rest =>
      if String.eqb name c then Some 0%nat
      else option_map S (index_of name rest)
  end.

(** The cells of column [i].  A row that is shorter than the header has no
    text cell there: the filler stands for a missing value, which pandas
    keeps as a float and [Path] rejects, so the properties of the paths are
    stated for rows that have the cell. *)
Definition column (df : DataFrame) (i : nat) : list string :=
  map (fun r => nth i r "nan") (rows df).

(** [obj[key]] with a scalar key.  On a frame a scalar key is a column
    label: the column is returned when the label exists, [KeyError]
    otherwise; the labels are strings, so a [bool] key is never found.  On
    a series a scalar key is an index label; the index is a range of
    integers, so a string or [bool] key is a [KeyError]. *)
Definition pandas_getitem (obj : pandas_obj) (key : pykey) : result Series :=
  match obj with
  | PFrame df =>
      match key with
      | KStr name =>
          match index_of name (columns df) with
          | Some i => Ok (mkSeries name (column df i))
          | None => Raise (key_error key)
          end
      | KBool _ => Raise (key_error key)
      end
  | PSeries _ => Raise (key_error key)
  end.

(** ** The world: global random generator and the log of external calls *)

Inductive extcall :=
| CallGetDuration (path : string)
| CallCrop (audio_duration : float)
| CallLoad (path : string) (sr offset : float) (duration : option float)
| CallTransform (x : ndarray)
| CallChoice (n : N)
| CallReadMidi (midi_path : string) (extend_pedal : bool)
| CallClipNotes (events : list Event) (start_time duration : float)
| CallTargetTransform (x : dict)
| CallYamlLoad (path : string)
| CallReadMidiBeat (path : string)
| CallReadCsv (path : string).

(** The state of the module-level generator of [random] is a finite bit
    vector, held here as a number. *)
Record world := mkWorld {
  rng : N;
  trace : list extcall
}.

Definition log (c : extcall) (w : world) : world :=
  mkWorld (rng w) (trace w ++ [c]).

(** Computations: a result or an exception, and the world afterwards. *)
Definition M (A : Type) : Type := world -> result A * world.

Definition ret {A} (a : A) : M A := fun w => (Ok a, w).

Definition raise {A} (e : exn) : M A := fun w => (Raise e, w).

Definition bind {A B} (m : M A) (f : A -> M B) : M B :=
  fun w =>
    match m w with
    | (Ok a, w') => f a w'
    | (Raise e, w') => (Raise e, w')
    end.

Notation "'let*' x ':=' m 'in' k" := (bind m (fun x => k))
  (at level 10, x name, m at level 100, k at level 200).
Notation "'let*' ' pat ':=' m 'in' k" :=
  (bind m (fun x => match x with pat => k end))
  (at level 10, pat pattern, m at level 100, k at level 200).

(** An external call that does not touch the generator. *)
Definition ext {A} (c : extcall) (r : result A) : M A :=
  fun w => (r, log c w).

(** An external call that may draw from the global generator. *)
Definition ext_random {A} (c : extcall) (f : N -> result A * N) : M A :=
  fun w => let (r, s) := f (rng w) in (r, mkWorld s (trace w ++ [c])).

(** ** External collaborators *)

Record Env := mkEnv {
  (** [librosa.get_duration(path=...)] *)
  get_duration : string -> result float;
  (** [audidata.io.audio.load(path, sr, offset, duration)] *)
  load : string -> float -> float -> option float -> result ndarray;
  (** [audidata.io.midi.read_single_track_midi(midi_path, extend_pedal)] *)
  read_single_track_midi : string -> bool -> result (list Event * list Event);
  (** [audidata.io.midi.clip_notes(events, start_time, duration)] *)
  clip_notes : list Event -> float -> float -> result (list Event);
  (** [audidata.io.midi.read_midi_beat(path)] *)
  read_midi_beat : string -> result (list float * list float);
  (** [open(path)] followed by [yaml.load] *)
  yaml_load : string -> result yaml;
  (** [pandas.read_csv(path, sep=",")] *)
  read_csv : string -> result DataFrame;
  (** [str(series)] *)
  series_str : Series -> string;
  (** [random._randbelow(n)] on the module-level generator *)
  randbelow : N -> N -> N * N;
  randbelow_lt : forall n s, (0 < n)%N -> (fst (randbelow n s) < n)%N
}.

(** A crop callable such as [RandomCrop]: from the audio duration and the
    state of the global generator to [(start_time, clip_duration)].  It is
    the one injected callable that is given the generator; [transform] and
    [target_transform] are modelled, like [Mono] and [PianoRoll], as
    functions of their argument alone that may raise. *)
Definition Crop := float -> N -> result (float * float) * N.

(** [audidata.utils.call(transform, x)] for a single transform. *)
Definition call {A} (transform : A -> result A) (x : A) : result A :=
  transform x.

(** A pure step that may raise. *)
Definition lift {A} (r : result A) : M A := fun w => (r, w).

(** [random.choice(seq)]: [seq[_randbelow(len(seq))]], [IndexError] on an
    empty sequence. *)
Definition random_choice (E : Env) {A} (seq : list A) : M A :=
  match seq with
  | [] => raise IndexError
  | _ =>
      let n := N.of_nat (length seq) in
      ext_random (CallChoice n)
        (fun s =>
           let (i, s') := randbelow E n s in
           (match nth_error seq (N.to_nat i) with
            | Some x => Ok x
            | None => Raise IndexError
            end, s'))
  end.

(** [[f(x) for x in xs]] *)
Fixpoint mapM {A B} (f : A -> M B) (xs : list A) : M (list B) :=
  match xs with
  | [] => ret []
  | x :: rest =>
      let* y := f x in
      let* ys := mapM f rest in
      ret (y :: ys)
  end.

(** [d[k]] where a float is expected. *)
Definition dict_getitem_float (d : dict) (k : string) : result float :=
  match d !! k with
  | Some (VFloat f) => Ok f
  | Some _ => Raise TypeError
  | None => Raise (KeyError k)
  end.

(** The five task prompts, the same list in both classes. *)
Definition questions : list string :=
  [ "Music transcription.";
    "Convert audio music into MIDI data format.";
    "Transcribe music recordings into MIDI note sequences.";
    "Automatically generate MIDI file from audio music.";
    "Extract music elements and convert to MIDI notes." ].

(** The directory listings used when a [Slakh2100] instance is built. *)
Record FileSystem := mkFileSystem {
  (** [os.listdir(path)] *)
  listdir : string -> result (list string);
  (** [next(os.walk(path))[1]]: the sub-directories of [path] *)
  walk_dirnames : string -> result (list string)
}.

(** The order of Python strings: by code point, position by position. *)
Definition str_le (s1 s2 : string) : Prop := String.leb s1 s2 = true.

#[global] Instance str_le_dec : RelDecision str_le :=
  fun s1 s2 => decide (String.leb s1 s2 = true).

(** [sorted(names)] *)
Definition sorted (names : list string) : list string :=
  merge_sort str_le names.

(** ** guitarset.py *)

Module GuitarSet.

Record MetaDict := mkMetaDict {
  audio_name : list string;
  audio_path : list string;
  midi_name : list string;
  midi_path : list string;
  duration : list float
}.

Record self := mkSelf {
  root : string;
  split : string;
  sr : float;
  crop : option Crop;
  transform : option (ndarray -> result ndarray);
  load_target : bool;
  extend_pedal : bool;
  target_transform : option (dict -> result dict);
  meta_dict : MetaDict
}.

Section Methods.
Variable E : Env.

(** Lines 100-117. *)
Definition load_audio_data (s : self) (path : string) : M dict :=
  let* audio_duration := ext (CallGetDuration path) (get_duration E path) in
  let* '(start_time, clip_duration) :=
    match crop s with
    | Some c => ext_random (CallCrop audio_duration) (c audio_duration)
    | None => ret (0%float, audio_duration)
    end in
  let* audio :=
    ext (CallLoad path (sr s) start_time (Some clip_duration))
        (load E path (sr s) start_time (Some clip_duration)) in
  let* audio :=
    match transform s with
    | Some t => ext (CallTransform audio) (call t audio)
    | None => ret audio
    end in
  ret ({[ "audio" := VArray audio;
          "start_time" := VFloat start_time;
          "duration" := VFloat clip_duration ]} : dict).

(** Lines 119-132. *)
Definition load_question_data (s : self) : M dict :=
  let* question := random_choice E questions in
  ret ({[ "question" := VStr question ]} : dict).

(** Lines 134-158. *)
Definition load_target_data (s : self) (midi_path : string)
    (start_time duration : float) : M dict :=
  let* '(notes, pedals) :=
    ext (CallReadMidi midi_path (extend_pedal s))
        (read_single_track_midi E midi_path (extend_pedal s)) in
  let* notes :=
    ext (CallClipNotes notes start_time duration)
        (clip_notes E notes start_time duration) in
  let* pedals :=
    ext (CallClipNotes pedals start_time duration)
        (clip_notes E pedals start_time duration) in
  let target : dict :=
    {[ "note" := VEvents notes;
       "pedal" := VEvents pedals;
       "start_time" := VFloat start_time;
       "duration" := VFloat duration;
       "midi_path" := VStr midi_path ]} in
  match target_transform s with
  | Some t => ext (CallTargetTransform target) (call t target)
  | None => ret target
  end.

(** Lines 49-61.  The body ends after [full_data.update(audio_data)]: there
    is no [return], so a call that raises nothing yields [None]. *)
Definition __getitem__ (s : self) (index : Z) : M (option dict) :=
  let* audio_path := lift (py_index (audio_path (meta_dict s)) index) in
  let* midi_path := lift (py_index (midi_path (meta_dict s)) index) in
  let full_data : dict :=
    {[ "dataset_name" := VStr "GuitarSet";
       "audio_path" := VStr audio_path;
       "midi_path" := VStr midi_path ]} in
  let* audio_data := load_audio_data s audio_path in
  let full_data := dict_update full_data audio_data in
  ret None.

(** Lines 63-65. *)
Definition __len__ (s : self) : nat := length (audio_name (meta_dict s)).

(** Lines 80-98 of [load_meta]: the meta dict built from the selected
    table [df]. *)
Definition build_meta_dict (root : string) (df : pandas_obj) : M MetaDict :=
  let* audio_names := lift (pandas_getitem df (KStr "File Path")) in
  let audio_names := values audio_names in
  let* midi_names := lift (pandas_getitem df (KStr "Midi_file_path")) in
  let midi_names := values midi_names in
  let audio_paths := map (fun name => Path [root; "data"; name]) audio_names in
  let midi_paths := map (fun name => Path [root; "data"; name]) midi_names in
  let* durations :=
    mapM (fun audio_path =>
            ext (CallGetDuration audio_path) (get_duration E audio_path))
         audio_paths in
  ret (mkMetaDict audio_names audio_paths midi_names midi_paths durations).

(** Lines 68-98.  The key of [df[...]] on lines 76 and 78 is one [bool]:
    the rendering of the whole column as a string is tested for the prefix
    "05". *)
Definition load_meta (root split : string) (meta_csv : string) : M MetaDict :=
  let* df := ext (CallReadCsv meta_csv) (read_csv E meta_csv) in
  let* file_path := lift (pandas_getitem (PFrame df) (KStr "File Path")) in
  let starts := String.prefix "05" (series_str E file_path) in
  let key := if String.eqb split "test" then starts else negb starts in
  let* df := lift (pandas_getitem (PFrame df) (KBool key)) in
  build_meta_dict root (PSeries df).

(** Lines 24-47. *)
Definition __init__ (root split : string) (sr : float) (crop : option Crop)
    (transform : option (ndarray -> result ndarray))
    (load_target extend_pedal : bool)
    (target_transform : option (dict -> result dict)) : M self :=
  let meta_csv := Path [root; "metadata.csv"] in
  let* meta_dict := load_meta root split meta_csv in
  ret (mkSelf root split sr crop transform load_target extend_pedal
         target_transform meta_dict).

End Methods.
End GuitarSet.

(** ** slakh2100.py *)

Module Slakh2100.

Record self := mkSelf {
  root : string;
  split : string;
  sr : float;
  crop : option Crop;
  transform : option (ndarray -> result ndarray);
  load_target : bool;
  extend_pedal : bool;
  target_transform : option (dict -> result dict);
  (** [meta_dict["audio_name"]] *)
  audio_name : list string
}.

Section Methods.
Variable E : Env.

(** Lines 152-175. *)
Definition load_audio (s : self) (path : string) : M dict :=
  let* audio_duration := ext (CallGetDuration path) (get_duration E path) in
  let* '(start_time, clip_duration) :=
    match crop s with
    | Some c =>
        let* '(start_time, clip_duration) :=
          ext_random (CallCrop audio_duration) (c audio_duration) in
        ret (start_time, Some clip_duration)
    | None => ret (0%float, None)
    end in
  let* audio :=
    ext (CallLoad path (sr s) start_time clip_duration)
        (load E path (sr s) start_time clip_duration) in
  let duration :=
    match clip_duration with
    | Some d => if float_truthy d then d else audio_duration
    | None => audio_duration
    end in
  let* audio :=
    match transform s with
    | Some t => ext (CallTransform audio) (t audio)
    | None => ret audio
    end in
  ret ({[ "audio" := VArray audio;
          "start_time" := VFloat start_time;
          "duration" := VFloat duration ]} : dict).

(** Lines 177-190. *)
Definition load_question (s : self) : M dict :=
  let* question := random_choice E questions in
  ret ({[ "question" := VStr question ]} : dict).

(** Lines 214-240: the loop over [meta["stems"].items()], with the list
    [data["tracks"]] built so far. *)
Fixpoint load_tracks (s : self) (midis_dir : string)
    (stems : list (string * yaml)) (tracks : list Track) : M (list Track) :=
  match stems with
  | [] => ret tracks
  | (stem_name, stem_data) :: rest =>
      let* midi_saved := lift (yaml_getitem stem_data "midi_saved") in
      if negb (truthy midi_saved) then load_tracks s midis_dir rest tracks
      else
        let* inst_class := lift (yaml_getitem stem_data "inst_class") in
        let* is_drum := lift (yaml_getitem stem_data "is_drum") in
        let* plugin_name := lift (yaml_getitem stem_data "plugin_name") in
        let* program_num := lift (yaml_getitem stem_data "program_num") in
        let midi_path := Path [midis_dir; stem_name ++ ".mid"] in
        let* '(notes, pedals) :=
          ext (CallReadMidi midi_path (extend_pedal s))
              (read_single_track_midi E midi_path (extend_pedal s)) in
        let track :=
          mkTrack stem_name inst_class is_drum plugin_name program_num
                  notes pedals in
        load_tracks s midis_dir rest (tracks ++ [track])
  end.

(** Lines 192-244. *)
Definition load_target_data (s : self)
    (meta_yaml mix_midi_path midis_dir : string)
    (start_time clip_duration : float) : M dict :=
  let* meta := ext (CallYamlLoad meta_yaml) (yaml_load E meta_yaml) in
  let* '(beats, downbeats) :=
    ext (CallReadMidiBeat mix_midi_path) (read_midi_beat E mix_midi_path) in
  let* stems := lift (yaml_getitem meta "stems") in
  let* stems := lift (yaml_items stems) in
  let* tracks := load_tracks s midis_dir stems [] in
  let data : dict :=
    {[ "start_time" := VFloat start_time;
       "clip_duration" := VFloat clip_duration;
       "beat" := VFloats beats;
       "downbeat" := VFloats downbeats;
       "tracks" := VTracks tracks ]} in
  match target_transform s with
  | Some t => ext (CallTargetTransform data) (t data)
  | None => ret data
  end.

(** Lines 88-120. *)
Definition __getitem__ (s : self) (index : Z) : M dict :=
  let* name := lift (py_index (audio_name s) index) in
  let prefix := Path [root s; split s; name] in
  let audio_path := Path [prefix; "mix.flac"] in
  let meta_yaml := Path [prefix; "metadata.yaml"] in
  let mix_midi_path := Path [prefix; "all_src.mid"] in
  let midis_dir := Path [prefix; "MIDI"] in
  let full_data : dict :=
    {[ "dataset_name" := VStr "Slakh2100";
       "audio_path" := VStr audio_path ]} in
  let* audio_data := load_audio s audio_path in
  let full_data := dict_update full_data audio_data in
  let* question_data := load_question s in
  let full_data := dict_update full_data question_data in
  if load_target s then
    let* start_time := lift (dict_getitem_float audio_data "start_time") in
    let* clip_duration := lift (dict_getitem_float audio_data "duration") in
    let* target_data :=
      load_target_data s meta_yaml mix_midi_path midis_dir
        start_time clip_duration in
    ret (dict_update full_data target_data)
  else ret full_data.

(** Lines 122-126. *)
Definition __len__ (s : self) : nat := length (audio_name s).

End Methods.

Section Construction.
Variable FS : FileSystem.

(** Lines 61-86.  The listing of the split directory is the only external
    call; the instance holds the sorted names. *)
Definition __init__ (root split : string) (sr : float) (crop : option Crop)
    (transform : option (ndarray -> result ndarray))
    (load_target extend_pedal : bool)
    (target_transform : option (dict -> result dict)) : result self :=
  let audios_dir := Path [root; split] in
  match listdir FS audios_dir with
  | Ok names =>
      Ok (mkSelf root split sr crop transform load_target extend_pedal
            target_transform (sorted names))
  | Raise e => Raise e
  end.

(** The dict of four lists built by [load_meta]. *)
Record MetaLists := mkMetaLists {
  meta_audio_name : list string;
  meta_audio_path : list string;
  meta_midi_name : list string;
  meta_midi_path : list string
}.

(** Lines 141-148: the four appends for one directory. *)
Definition append_dir (s : self) (meta_dict : MetaLists) (dir : string)
    : MetaLists :=
  mkMetaLists
    (meta_audio_name meta_dict ++ ["mix.flac"])
    (meta_audio_path meta_dict ++ [Path [root s; split s; dir; "mix.flac"]])
    (meta_midi_name meta_dict ++ ["all_src.mid"])
    (meta_midi_path meta_dict ++ [Path [root s; split s; dir; "all_src.mid"]]).

(** Lines 129-150. *)
Definition load_meta (s : self) : result MetaLists :=
  match walk_dirnames FS (Path [root s; split s]) with
  | Ok dirs => Ok (fold_left (append_dir s) dirs (mkMetaLists [] [] [] []))
  | Raise e => Raise e
  end.

End Construction.
End Slakh2100.

(** ** A concrete environment

    A small file system and generator on which the methods can be run. *)

Module Fixture.

(** Modelled from the spec: [audidata.io.midi.clip_notes] is not part of the
    sources; section 4.2 (Event Clipper) gives its contract and section 7
    its errors.  An event with [offset <= onset], or with a negative or
    non-finite timestamp, is malformed and rejected.  An event is clamped to
    the window, kept when the clamped interval is not empty, and re-based to
    the window start. *)
Definition malformed (e : Event) : bool :=
  PrimFloat.leb (offset e) (onset e)
  || negb (PrimFloat.is_finite (onset e))
  || negb (PrimFloat.is_finite (offset e))
  || PrimFloat.ltb (onset e) 0
  || PrimFloat.ltb (offset e) 0.

Fixpoint spec_clip_notes (events : list Event) (start_time duration : float)
    : result (list Event) :=
  match events with
  | [] => Ok []
  | e :: rest =>
      if malformed e then Raise (ExternalError "MalformedEventError")
      else
        match spec_clip_notes rest start_time duration with
        | Raise err => Raise err
        | Ok rest' =>
            let window_end := PrimFloat.add start_time duration in
            let clamped_onset :=
              if PrimFloat.ltb (onset e) start_time then start_time else onset e in
            let clamped_offset :=
              if PrimFloat.ltb window_end (offset e) then window_end else offset e in
            if PrimFloat.ltb clamped_onset clamped_offset then
              Ok (mkEvent (PrimFloat.sub clamped_onset start_time)
                          (PrimFloat.sub clamped_offset start_time)
                          (pitch e) (velocity e) :: rest')
            else Ok rest'
        end
  end.

Definition notes0 : list Event :=
  [ mkEvent 8 14 (Some 60%Z) (Some 100%Z);
    mkEvent 20 21 (Some 62%Z) (Some 90%Z) ].

Definition pedals0 : list Event := [ mkEvent 9 12 None None ].

Definition stem (saved : bool) (inst : string) (program : Z) : yaml :=
  YMap [ ("inst_class", YStr inst);
         ("is_drum", YBool false);
         ("midi_saved", YBool saved);
         ("plugin_name", YStr "plugin.nkm");
         ("program_num", YInt program) ].

Definition S00 : string * yaml := ("S00", stem true "Guitar" 30).
Definition S01 : string * yaml := ("S01", YMap [ ("midi_saved", YBool false) ]).
Definition S02 : string * yaml := ("S02", stem true "Piano" 0).

Definition meta0 : yaml :=
  YMap [ ("UUID", YStr "1a81ae09");
         ("stems", YMap [ S00; S01; S02 ]) ].

Definition track_S00 : Track :=
  mkTrack "S00" (YStr "Guitar") (YBool false) (YStr "plugin.nkm") (YInt 30)
          notes0 pedals0.

Definition track_S02 : Track :=
  mkTrack "S02" (YStr "Piano") (YBool false) (YStr "plugin.nkm") (YInt 0)
          [mkEvent 1 2 (Some 48%Z) (Some 80%Z)] [].

Definition meta_yaml0 : string := "r/train/Track00001/metadata.yaml".
Definition mix_midi_path0 : string := "r/train/Track00001/all_src.mid".
Definition midis_dir0 : string := "r/train/Track00001/MIDI".

Definition table0 : DataFrame :=
  mkDataFrame [ "File Path"; "Midi_file_path" ]
    [ [ "05_a.wav"; "05_a.mid" ];
      [ "00_b.wav"; "00_b.mid" ] ].

(** The rendering starts, as pandas' does, with the index label of the
    first row. *)
Definition render (s : Series) : string :=
  match values s with
  | [] => "Series([], Name: " ++ series_name s ++ ", dtype: object)"
  | v :: _ => "0    " ++ v
  end.

Definition counter_randbelow (n s : N) : N * N := ((s mod n)%N, (s + 1)%N).

Definition counter_randbelow_lt (n s : N) (Hn : (0 < n)%N)
    : (fst (counter_randbelow n s) < n)%N :=
  N.mod_lt s n (proj2 (N.neq_0_lt_0 n) Hn).

Definition env0 : Env :=
  mkEnv
    (fun _ => Ok 30%float)
    (fun _ _ offset duration =>
       Ok [[offset; match duration with Some d => d | None => 30%float end]])
    (fun midi_path _ =>
       if String.eqb midi_path "r/train/Track00001/MIDI/S01.mid"
       then Raise (ExternalError "FileNotFoundError")
       else if String.eqb midi_path "r/train/Track00001/MIDI/S02.mid"
       then Ok ([mkEvent 1 2 (Some 48%Z) (Some 80%Z)], [])
       else Ok (notes0, pedals0))
    spec_clip_notes
    (fun _ => Ok ([0%float; 0.5%float], [0%float]))
    (fun _ => Ok meta0)
    (fun _ => Ok table0)
    render
    counter_randbelow
    counter_randbelow_lt.

(** A crop that always selects the window [10, 15). *)
Definition crop0 : Crop := fun _ s => (Ok (10%float, 5%float), s).

Definition meta_dict0 : GuitarSet.MetaDict :=
  GuitarSet.mkMetaDict
    [ "00_b.wav" ] [ "r/data/00_b.wav" ]
    [ "00_b.mid" ] [ "r/data/00_b.mid" ] [ 30%float ].

Definition guitarset0 (crop : option Crop) : GuitarSet.self :=
  GuitarSet.mkSelf "r" "train" 44100 crop None true true None meta_dict0.

Definition slakh0 (crop : option Crop) : Slakh2100.self :=
  Slakh2100.mkSelf "r" "train" 44100 crop None true true None
    [ "Track00001" ].

Definition w0 : world := mkWorld 0 [].

(** A crop that draws from the generator and selects a window of length
    0.0 at 10. *)
Definition crop_zero : Crop := fun _ s => (Ok (10%float, 0%float), (s + 7)%N).

(** Metadata in which the stem S01 is marked as saved; its MIDI file cannot
    be read. *)
Definition meta_unreadable : yaml :=
  YMap [ ("stems", YMap [ S00; ("S01", stem true "Bass" 33); S02 ]) ].

(** Metadata in which the record of the stem S01 has no [midi_saved] key. *)
Definition meta_no_flag : yaml :=
  YMap [ ("stems", YMap [ S00; ("S01", YMap [ ("inst_class", YStr "Bass") ]);
                          S02 ]) ].

(** Metadata in which no stem is saved. *)
Definition meta_none_saved : yaml :=
  YMap [ ("stems", YMap [ S01; ("S03", stem false "Drums" 0) ]) ].

(** An instance whose target transform returns a dict with an [audio]
    entry, and one that loads no target. *)
Definition slakh_override : Slakh2100.self :=
  Slakh2100.mkSelf "r" "train" 44100 None None true true
    (Some (fun _ => Ok ({[ "audio" := VNone ]} : dict))) [ "Track00001" ].

Definition slakh_no_target : Slakh2100.self :=
  Slakh2100.mkSelf "r" "train" 44100 None None false true None
    [ "Track00001" ].

(** The environment in which the duration of r/data/00_b.wav cannot be
    read. *)
Definition env_no_duration : Env :=
  mkEnv
    (fun path =>
       if String.eqb path "r/data/00_b.wav"
       then Raise (ExternalError "NoBackendError")
       else Ok 30%float)
    (load env0) (read_single_track_midi env0) (clip_notes env0)
    (read_midi_beat env0) (yaml_load env0) (read_csv env0) (series_str env0)
    (randbelow env0) (randbelow_lt env0).

(** A split directory listed out of order. *)
Definition fs0 : FileSystem :=
  mkFileSystem
    (fun _ => Ok [ "Track00003"; "Track00001"; "Track00002" ])
    (fun _ => Ok [ "Track00003"; "Track00001"; "Track00002" ]).

(** The same directory listed in another order. *)
Definition fs1 : FileSystem :=
  mkFileSystem
    (fun _ => Ok [ "Track00001"; "Track00003"; "Track00002" ])
    (fun _ => Ok [ "Track00001"; "Track00003"; "Track00002" ]).

End Fixture.

(** ** Notions used to state the properties *)

(** The stem's record marks its MIDI as saved. *)
Definition midi_saved (stem_data : yaml) : bool :=
  match yaml_getitem stem_data "midi_saved" with
  | Ok v => truthy v
  | Raise _ => false
  end.

(** The environment [E] with another content of the metadata files. *)
Definition with_meta (E : Env) (meta : yaml) : Env :=
  mkEnv (get_duration E) (load E) (read_single_track_midi E) (clip_notes E)
        (read_midi_beat E) (fun _ => Ok meta) (read_csv E) (series_str E)
        (randbelow E) (randbelow_lt E).

(** [track] is the record of the stem [stem]: its name, the four fields of
    the stem's metadata record, and the events read from the stem's own MIDI
    file under [midis_dir]. *)
Definition track_of_stem (E : Env) (extend_pedal : bool) (midis_dir : string)
    (stem : string * yaml) (track : Track) : Prop :=
  track_name track = fst stem /\
  yaml_getitem (snd stem) "inst_class" = Ok (inst_class track) /\
  yaml_getitem (snd stem) "is_drum" = Ok (is_drum track) /\
  yaml_getitem (snd stem) "plugin_name" = Ok (plugin_name track) /\
  yaml_getitem (snd stem) "program_num" = Ok (program_num track) /\
  read_single_track_midi E (Path [midis_dir; fst stem ++ ".mid"]) extend_pedal
  = Ok (note track, pedal track).

(** The call that reads the MIDI file of a track. *)
Definition read_call (extend_pedal : bool) (midis_dir : string)
    (track : Track) : extcall :=
  CallReadMidi (Path [midis_dir; track_name track ++ ".mid"]) extend_pedal.

(** The dict that [Slakh2100.load_target_data] builds before the target
    transform. *)
Definition slakh_data (start_time clip_duration : float)
    (beats downbeats : list float) (tracks : list Track) : dict :=
  {[ "start_time" := VFloat start_time;
     "clip_duration" := VFloat clip_duration;
     "beat" := VFloats beats;
     "downbeat" := VFloats downbeats;
     "tracks" := VTracks tracks ]}.

(** The dict that [GuitarSet.load_target_data] builds before the target
    transform. *)
Definition guitarset_target (notes pedals : list Event)
    (start_time duration : float) (midi_path : string) : dict :=
  {[ "note" := VEvents notes;
     "pedal" := VEvents pedals;
     "start_time" := VFloat start_time;
     "duration" := VFloat duration;
     "midi_path" := VStr midi_path ]}.

(** [c] is a call of the Event Clipper. *)
Definition is_clip_call (c : extcall) : bool :=
  match c with
  | CallClipNotes _ _ _ => true
  | _ => false
  end.

(** The run returned, it did not raise. *)
Definition is_Ok {A} (r : result A * world) : bool :=
  match fst r with
  | Ok _ => true
  | Raise _ => false
  end.

(** The dict that a run returned; the empty dict when it raised. *)
Definition returned (r : result dict * world) : dict :=
  match fst r with
  | Ok d => d
  | Raise _ => ∅
  end.

(** The computation [m] leaves the observation [f] of the world as it
    found it, in every run. *)
Definition preserves {S A} (f : world -> S) (m : M A) : Prop :=
  forall w, f (snd (m w)) = f w.

(** [c] is a call made to build the target: reading the metadata, the beats
    or a MIDI file, clipping, or the target transform. *)
Definition is_target_call (c : extcall) : bool :=
  match c with
  | CallYamlLoad _ | CallReadMidiBeat _ | CallReadMidi _ _
  | CallClipNotes _ _ _ | CallTargetTransform _ => true
  | _ => false
  end.

(** The calls of the log that build a target. *)
Definition target_calls (w : world) : list extcall :=
  List.filter is_target_call (trace w).

(** [index] is not an index of a list of length [n], negative indices
    included. *)
Definition out_of_range (index : Z) (n : nat) : Prop :=
  (index < - Z.of_nat n \/ Z.of_nat n <= index)%Z.

(** ** Reasoning about computations *)

Lemma bind_Ok {A B} (m : M A) (f : A -> M B) w b w' :
  bind m f w = (Ok b, w') ->
  exists a w1, m w = (Ok a, w1) /\ f a w1 = (Ok b, w').
Proof.
  unfold bind. destruct (m w) as [[a | e] w1]; intros H.
  - exists a, w1. split; [reflexivity | exact H].
  - discriminate.
Qed.

Lemma bind_run {A B} (m : M A) (f : A -> M B) w a w1 :
  m w = (Ok a, w1) -> bind m f w = f a w1.
Proof. unfold bind. intros ->. reflexivity. Qed.

Lemma lift_Ok {A} (r : result A) w a w' :
  lift r w = (Ok a, w') -> r = Ok a /\ w' = w.
Proof. unfold lift. intros H. inversion H. split; reflexivity. Qed.

Lemma ext_Ok {A} c (r : result A) w a w' :
  ext c r w = (Ok a, w') -> r = Ok a /\ w' = log c w.
Proof. unfold ext. intros H. inversion H. split; reflexivity. Qed.

Lemma ret_Ok {A} (x : A) w a w' :
  ret x w = (Ok a, w') -> a = x /\ w' = w.
Proof. unfold ret. intros H. inversion H. split; reflexivity. Qed.

Lemma bind_congr {A B} (m : M A) (f g : A -> M B) w :
  (forall a w1, m w = (Ok a, w1) -> f a w1 = g a w1) ->
  bind m f w = bind m g w.
Proof.
  intros H. unfold bind. destruct (m w) as [[a | e] w1]; [| reflexivity].
  apply H. reflexivity.
Qed.

(** Take apart a hypothesis saying that a computation returned. *)
Ltac inv_step H1 :=
  match type of H1 with
  | ret _ _ = (Ok _, _) => apply ret_Ok in H1; destruct H1 as [-> ->]
  | lift _ _ = (Ok _, _) => apply lift_Ok in H1; destruct H1 as [H1 ->]
  | ext _ _ _ = (Ok _, _) => apply ext_Ok in H1; destruct H1 as [H1 ->]
  | _ => idtac
  end.

Ltac inv_run H :=
  repeat match type of H with
  | bind _ _ _ = (Ok _, _) =>
      let a := fresh "a" in
      let w1 := fresh "w" in
      let H1 := fresh "Hrun" in
      apply bind_Ok in H; destruct H as (a & w1 & H1 & H);
      inv_step H1; cbv beta iota in H
  | (let (_, _) := ?p in _) _ = (Ok _, _) =>
      destruct p; cbv beta iota in H
  end.

(** ** The task prompt *)

Lemma random_choice_questions E w :
  exists q s',
    In q questions /\
    random_choice E questions w
    = (Ok q, mkWorld s' (trace w ++ [CallChoice 5])).
Proof.
  unfold random_choice, questions, ext_random.
  change (N.of_nat (length _)) with 5%N.
  pose proof (randbelow_lt E 5 (rng w) eq_refl) as Hlt.
  destruct (randbelow E 5 (rng w)) as [i s'] eqn:Hdraw. simpl in Hlt.
  assert (Hi : (N.to_nat i < 5)%nat) by lia.
  destruct (N.to_nat i) as [|[|[|[|[|n]]]]]; try lia;
    simpl; eexists; exists s'; (split; [| reflexivity]); simpl; tauto.
Qed.

(** C10.  The question attached by [GuitarSet.load_question_data] and by
    [Slakh2100.load_question] is, for every state of the generator and every
    instance, one of the five fixed prompts, and the call always returns. *)
Theorem question_is_a_fixed_prompt E (sg : GuitarSet.self)
    (ss : Slakh2100.self) (w : world) :
  (exists q w',
      GuitarSet.load_question_data E sg w
      = (Ok ({[ "question" := VStr q ]} : dict), w') /\
      In q [ "Music transcription.";
             "Convert audio music into MIDI data format.";
             "Transcribe music recordings into MIDI note sequences.";
             "Automatically generate MIDI file from audio music.";
             "Extract music elements and convert to MIDI notes." ]) /\
  (exists q w',
      Slakh2100.load_question E ss w
      = (Ok ({[ "question" := VStr q ]} : dict), w') /\
      In q [ "Music transcription.";
             "Convert audio music into MIDI data format.";
             "Transcribe music recordings into MIDI note sequences.";
             "Automatically generate MIDI file from audio music.";
             "Extract music elements and convert to MIDI notes." ]).
Proof.
  destruct (random_choice_questions E w) as (q & s' & Hin & Hrun).
  split; exists q; eexists;
    (split; [| exact Hin]);
    unfold GuitarSet.load_question_data, Slakh2100.load_question;
    rewrite (bind_run _ _ _ _ _ Hrun); reflexivity.
Qed.

(** ** Cropping disabled *)

Lemma guitarset_no_crop_returned E (s : GuitarSet.self) path w data w' :
  GuitarSet.crop s = None ->
  GuitarSet.load_audio_data E s path w = (Ok data, w') ->
  exists d,
    get_duration E path = Ok d /\
    data !! "start_time" = Some (VFloat 0) /\
    data !! "duration" = Some (VFloat d).
Proof.
  intros Hcrop H. unfold GuitarSet.load_audio_data in H.
  rewrite Hcrop in H. inv_run H.
  apply ret_Ok in H as [-> _].
  exists a. split; [assumption |]. split; reflexivity.
Qed.

Lemma slakh_no_crop_returned E (s : Slakh2100.self) path w data w' :
  Slakh2100.crop s = None ->
  Slakh2100.load_audio E s path w = (Ok data, w') ->
  exists d,
    get_duration E path = Ok d /\
    data !! "start_time" = Some (VFloat 0) /\
    data !! "duration" = Some (VFloat d).
Proof.
  intros Hcrop H. unfold Slakh2100.load_audio in H.
  rewrite Hcrop in H. inv_run H.
  apply ret_Ok in H as [-> _].
  exists a. split; [assumption |]. split; reflexivity.
Qed.

Lemma guitarset_no_crop_returns E (s : GuitarSet.self) path w d a a' :
  GuitarSet.crop s = None ->
  get_duration E path = Ok d ->
  load E path (GuitarSet.sr s) 0 (Some d) = Ok a ->
  match GuitarSet.transform s with Some t => t a | None => Ok a end = Ok a' ->
  fst (GuitarSet.load_audio_data E s path w)
  = Ok ({[ "audio" := VArray a';
           "start_time" := VFloat 0;
           "duration" := VFloat d ]} : dict).
Proof.
  intros Hcrop Hd Hload Ht. unfold GuitarSet.load_audio_data.
  rewrite Hcrop, Hd. unfold bind at 1, ext at 1.
  unfold bind at 1, ret at 1. cbv beta iota.
  rewrite Hload. unfold bind at 1, ext at 1.
  destruct (GuitarSet.transform s) as [t |].
  - unfold call. rewrite Ht. reflexivity.
  - injection Ht as <-. reflexivity.
Qed.

Lemma slakh_no_crop_returns E (s : Slakh2100.self) path w d a a' :
  Slakh2100.crop s = None ->
  get_duration E path = Ok d ->
  load E path (Slakh2100.sr s) 0 None = Ok a ->
  match Slakh2100.transform s with Some t => t a | None => Ok a end = Ok a' ->
  fst (Slakh2100.load_audio E s path w)
  = Ok ({[ "audio" := VArray a';
           "start_time" := VFloat 0;
           "duration" := VFloat d ]} : dict).
Proof.
  intros Hcrop Hd Hload Ht. unfold Slakh2100.load_audio.
  rewrite Hcrop, Hd. unfold bind at 1, ext at 1.
  unfold bind at 1, ret at 1. cbv beta iota.
  rewrite Hload. unfold bind at 1, ext at 1.
  destruct (Slakh2100.transform s) as [t |].
  - rewrite Ht. reflexivity.
  - injection Ht as <-. reflexivity.
Qed.

(** C3.  With cropping disabled ([crop] is [None]) the window is the whole
    source: every dict returned by [GuitarSet.load_audio_data] and by
    [Slakh2100.load_audio] has [start_time] 0.0 and [duration] equal to the
    duration that [librosa.get_duration] reports for the path; and the two
    methods do return such a dict whenever the duration query, the audio
    load from offset 0.0 and the audio transform succeed. *)
Theorem crop_disabled_selects_full_duration E (sg : GuitarSet.self)
    (ss : Slakh2100.self) (path : string) (w : world) :
  GuitarSet.crop sg = None ->
  Slakh2100.crop ss = None ->
  (forall data w',
      GuitarSet.load_audio_data E sg path w = (Ok data, w') ->
      exists d, get_duration E path = Ok d /\
                data !! "start_time" = Some (VFloat 0) /\
                data !! "duration" = Some (VFloat d)) /\
  (forall data w',
      Slakh2100.load_audio E ss path w = (Ok data, w') ->
      exists d, get_duration E path = Ok d /\
                data !! "start_time" = Some (VFloat 0) /\
                data !! "duration" = Some (VFloat d)) /\
  (forall d a a',
      get_duration E path = Ok d ->
      load E path (GuitarSet.sr sg) 0 (Some d) = Ok a ->
      match GuitarSet.transform sg with Some t => t a | None => Ok a end
      = Ok a' ->
      fst (GuitarSet.load_audio_data E sg path w)
      = Ok ({[ "audio" := VArray a';
               "start_time" := VFloat 0;
               "duration" := VFloat d ]} : dict)) /\
  (forall d a a',
      get_duration E path = Ok d ->
      load E path (Slakh2100.sr ss) 0 None = Ok a ->
      match Slakh2100.transform ss with Some t => t a | None => Ok a end
      = Ok a' ->
      fst (Slakh2100.load_audio E ss path w)
      = Ok ({[ "audio" := VArray a';
               "start_time" := VFloat 0;
               "duration" := VFloat d ]} : dict)).
Proof.
  intros Hg Hs. repeat split.
  - intros data w'. apply guitarset_no_crop_returned, Hg.
  - intros data w'. apply slakh_no_crop_returned, Hs.
  - intros d a a'. apply guitarset_no_crop_returns, Hg.
  - intros d a a'. apply slakh_no_crop_returns, Hs.
Qed.

(** The fixture source lasts 30 seconds; without a crop both classes report
    the window [0, 30). *)
Lemma crop_disabled_selects_full_duration_witness :
  fst (GuitarSet.load_audio_data Fixture.env0 (Fixture.guitarset0 None)
         "r/data/00_b.wav" Fixture.w0)
  = Ok ({[ "audio" := VArray [[0%float; 30%float]];
           "start_time" := VFloat 0;
           "duration" := VFloat 30 ]} : dict) /\
  fst (Slakh2100.load_audio Fixture.env0 (Fixture.slakh0 None)
         "r/train/Track00001/mix.flac" Fixture.w0)
  = Ok ({[ "audio" := VArray [[0%float; 30%float]];
           "start_time" := VFloat 0;
           "duration" := VFloat 30 ]} : dict).
Proof.
  split.
  - destruct (crop_disabled_selects_full_duration Fixture.env0
                (Fixture.guitarset0 None) (Fixture.slakh0 None)
                "r/data/00_b.wav" Fixture.w0 eq_refl eq_refl)
      as (_ & _ & Hg & _).
    apply (Hg 30%float [[0%float; 30%float]]); reflexivity.
  - destruct (crop_disabled_selects_full_duration Fixture.env0
                (Fixture.guitarset0 None) (Fixture.slakh0 None)
                "r/train/Track00001/mix.flac" Fixture.w0 eq_refl eq_refl)
      as (_ & _ & _ & Hs).
    apply (Hs 30%float [[0%float; 30%float]]); reflexivity.
Defined.

(** ** The loop over the stems *)

Section StemLoop.
Variable E : Env.
Variable s : Slakh2100.self.
Variable midis_dir : string.

Local Abbreviation saved :=
  (List.filter (fun st : string * yaml => midi_saved (snd st))).

Lemma load_tracks_unsaved name stem_data rest tracks v w :
  yaml_getitem stem_data "midi_saved" = Ok v ->
  truthy v = false ->
  Slakh2100.load_tracks E s midis_dir ((name, stem_data) :: rest) tracks w
  = Slakh2100.load_tracks E s midis_dir rest tracks w.
Proof.
  intros Hget Hv. cbn [Slakh2100.load_tracks].
  unfold bind at 1, lift at 1. rewrite Hget, Hv. reflexivity.
Qed.


(** The tracks appended by the loop are the records of the saved stems, in
    order, and the only external calls are the MIDI reads of those stems. *)
Lemma load_tracks_Ok stems :
  forall tracks w ts w',
    Slakh2100.load_tracks E s midis_dir stems tracks w = (Ok ts, w') ->
    exists new,
      ts = (tracks ++ new)%list /\
      Forall2 (track_of_stem E (Slakh2100.extend_pedal s) midis_dir)
              (saved stems) new /\
      trace w'
      = (trace w
         ++ map (read_call (Slakh2100.extend_pedal s) midis_dir) new)%list /\
      rng w' = rng w.
Proof.
  induction stems as [| [name stem_data] rest IH]; intros tracks w ts w' H.
  - apply ret_Ok in H as [-> ->]. exists []. simpl.
    rewrite !app_nil_r. repeat split. constructor.
  - cbn [Slakh2100.load_tracks] in H.
    apply bind_Ok in H as (v & w1 & Hget & H). inv_step Hget.
    cbn [List.filter snd]. unfold midi_saved at 1. rewrite Hget.
    destruct (truthy v) eqn:Hv; cbn [negb] in H.
    + inv_run H.
      apply IH in H as (new & -> & Hall & Htr & Hrng).
      eexists (_ :: new). split; [rewrite <- app_assoc; reflexivity |].
      split; [| split].
      * constructor; [| exact Hall].
        repeat split; cbn; assumption.
      * rewrite Htr. cbn. rewrite <- app_assoc. reflexivity.
      * rewrite Hrng. reflexivity.
    + apply IH in H. exact H.
Qed.

End StemLoop.


(** What a returning call of [Slakh2100.load_target_data] has done: the
    metadata and the beats were read, one track was built per saved stem,
    and the dict with these tracks and the window was returned, or handed
    to the target transform.  The external calls are exactly those. *)
Lemma slakh_load_target_data_Ok E (s : Slakh2100.self)
    meta_yaml mix_midi_path midis_dir start_time clip_duration w result w' :
  Slakh2100.load_target_data E s meta_yaml mix_midi_path midis_dir
    start_time clip_duration w = (Ok result, w') ->
  exists meta stems beats downbeats tracks,
    yaml_load E meta_yaml = Ok meta /\
    yaml_getitem meta "stems" = Ok (YMap stems) /\
    read_midi_beat E mix_midi_path = Ok (beats, downbeats) /\
    Forall2 (track_of_stem E (Slakh2100.extend_pedal s) midis_dir)
      (List.filter (fun st => midi_saved (snd st)) stems) tracks /\
    match Slakh2100.target_transform s with
    | Some t =>
        t (slakh_data start_time clip_duration beats downbeats tracks)
        = Ok result
    | None =>
        result = slakh_data start_time clip_duration beats downbeats tracks
    end /\
    trace w'
    = (trace w
       ++ [CallYamlLoad meta_yaml; CallReadMidiBeat mix_midi_path]
       ++ map (read_call (Slakh2100.extend_pedal s) midis_dir) tracks
       ++ match Slakh2100.target_transform s with
          | Some t =>
              [CallTargetTransform
                 (slakh_data start_time clip_duration beats downbeats tracks)]
          | None => []
          end)%list.
Proof.
  intros H. unfold Slakh2100.load_target_data in H.
  inv_run H. rename l into beats, l0 into downbeats.
  destruct a0 as [| | | | | | stems]; try discriminate.
  injection Hrun2 as <-.
  apply load_tracks_Ok in Hrun3 as (tracks & -> & Hall & Htr & _).
  exists a, stems, beats, downbeats, tracks.
  repeat (split; [assumption |]).
  cbn [app] in H.
  fold (slakh_data start_time clip_duration beats downbeats tracks) in H.
  destruct (Slakh2100.target_transform s) as [t |].
  - apply ext_Ok in H as [H ->]. split; [exact H |].
    cbn [log trace]. rewrite Htr. cbn [log trace].
    rewrite <- !app_assoc. reflexivity.
  - apply ret_Ok in H as [-> ->]. split; [reflexivity |].
    rewrite Htr. cbn [log trace]. rewrite <- !app_assoc, app_nil_r.
    reflexivity.
Qed.






(** C7.  Every track that [Slakh2100.load_target_data] builds belongs to
    one saved stem of the metadata, in order, one track per stem: it carries
    that stem's name, the stem's [inst_class], [is_drum], [plugin_name] and
    [program_num], and the note and pedal lists read from that stem's own
    MIDI file.  The list of these tracks is the [tracks] entry of the dict
    that is returned, or handed to the target transform. *)
Theorem tracks_carry_their_own_metadata E (s : Slakh2100.self)
    meta_yaml mix_midi_path midis_dir start_time clip_duration w result w' :
  Slakh2100.load_target_data E s meta_yaml mix_midi_path midis_dir
    start_time clip_duration w = (Ok result, w') ->
  exists meta stems beats downbeats tracks,
    yaml_load E meta_yaml = Ok meta /\
    yaml_getitem meta "stems" = Ok (YMap stems) /\
    Forall2 (track_of_stem E (Slakh2100.extend_pedal s) midis_dir)
      (List.filter (fun st => midi_saved (snd st)) stems) tracks /\
    slakh_data start_time clip_duration beats downbeats tracks !! "tracks"
    = Some (VTracks tracks) /\
    match Slakh2100.target_transform s with
    | Some t =>
        t (slakh_data start_time clip_duration beats downbeats tracks)
        = Ok result
    | None =>
        result = slakh_data start_time clip_duration beats downbeats tracks
    end.
Proof.
  intros H.
  apply slakh_load_target_data_Ok in H
    as (meta & stems & beats & downbeats & tracks
        & Hmeta & Hstems & _ & Hall & Hres & _).
  exists meta, stems, beats, downbeats, tracks.
  repeat (split; [assumption |]). split; [reflexivity | exact Hres].
Qed.

(** On the fixture the returned tracks are those of S00 and S02. *)
Lemma tracks_carry_their_own_metadata_witness :
  exists result tracks,
    fst (Slakh2100.load_target_data Fixture.env0 (Fixture.slakh0 None)
           Fixture.meta_yaml0 Fixture.mix_midi_path0 Fixture.midis_dir0 10 5
           Fixture.w0) = Ok result /\
    result !! "tracks" = Some (VTracks tracks) /\
    Forall2 (track_of_stem Fixture.env0 true Fixture.midis_dir0)
      [Fixture.S00; Fixture.S02] tracks.
Proof.
  destruct (tracks_carry_their_own_metadata Fixture.env0 (Fixture.slakh0 None)
              Fixture.meta_yaml0 Fixture.mix_midi_path0 Fixture.midis_dir0
              10 5 Fixture.w0 _ _ eq_refl)
    as (meta & stems & beats & downbeats & tracks
        & Hmeta & Hstems & Hall & Hlook & Hres).
  injection Hmeta as <-. injection Hstems as <-.
  pose proof (Hres : _ = slakh_data 10 5 beats downbeats tracks) as Heq.
  exists (slakh_data 10 5 beats downbeats tracks), tracks.
  split; [rewrite <- Heq; reflexivity |].
  split; [exact Hlook | exact Hall].
Defined.

(** ** The single-track target *)

(** What a returning call of [GuitarSet.load_target_data] has done. *)
Lemma guitarset_load_target_data_Ok E (s : GuitarSet.self)
    midi_path start_time duration w result w' :
  GuitarSet.load_target_data E s midi_path start_time duration w
  = (Ok result, w') ->
  exists notes pedals notes' pedals',
    read_single_track_midi E midi_path (GuitarSet.extend_pedal s)
    = Ok (notes, pedals) /\
    clip_notes E notes start_time duration = Ok notes' /\
    clip_notes E pedals start_time duration = Ok pedals' /\
    match GuitarSet.target_transform s with
    | Some t =>
        t (guitarset_target notes' pedals' start_time duration midi_path)
        = Ok result
    | None =>
        result = guitarset_target notes' pedals' start_time duration midi_path
    end /\
    trace w'
    = (trace w
       ++ [CallReadMidi midi_path (GuitarSet.extend_pedal s);
           CallClipNotes notes start_time duration;
           CallClipNotes pedals start_time duration]
       ++ match GuitarSet.target_transform s with
          | Some t =>
              [CallTargetTransform
                 (guitarset_target notes' pedals' start_time duration
                    midi_path)]
          | None => []
          end)%list.
Proof.
  intros H. unfold GuitarSet.load_target_data in H. inv_run H.
  rename l into notes, l0 into pedals, a into notes', a0 into pedals'.
  exists notes, pedals, notes', pedals'.
  repeat (split; [assumption |]).
  fold (guitarset_target notes' pedals' start_time duration midi_path) in H.
  destruct (GuitarSet.target_transform s) as [t |].
  - apply ext_Ok in H as [H ->]. split; [exact H |].
    cbn [log trace]. rewrite <- !app_assoc. reflexivity.
  - apply ret_Ok in H as [-> ->]. split; [reflexivity |].
    cbn [log trace]. rewrite <- !app_assoc. reflexivity.
Qed.

(** In every run, returning or raising, the MIDI read comes first and every
    call of [clip_notes] is made on a list that this read returned. *)
Lemma clip_calls_follow_the_read E (s : GuitarSet.self)
    midi_path start_time duration w :
  exists rest,
    trace (snd (GuitarSet.load_target_data E s midi_path start_time
                  duration w))
    = (trace w
       ++ CallReadMidi midi_path (GuitarSet.extend_pedal s) :: rest)%list /\
    forall events st d,
      In (CallClipNotes events st d) rest ->
      exists notes pedals,
        read_single_track_midi E midi_path (GuitarSet.extend_pedal s)
        = Ok (notes, pedals) /\
        (events = notes \/ events = pedals) /\
        st = start_time /\ d = duration.
Proof.
  unfold GuitarSet.load_target_data.
  unfold bind at 1, ext at 1.
  destruct (read_single_track_midi E midi_path (GuitarSet.extend_pedal s))
    as [[notes pedals] | e] eqn:Hread.
  2:{ exists []. split; [reflexivity |]. intros ? ? ? []. }
  unfold bind at 1, ext at 1.
  destruct (clip_notes E notes start_time duration) as [notes' | e].
  2:{ exists [CallClipNotes notes start_time duration].
      split; [cbn [snd log trace]; rewrite <- app_assoc; reflexivity |].
      intros events st d [Heq | []]. injection Heq as <- <- <-.
      exists notes, pedals. auto. }
  unfold bind at 1, ext at 1.
  destruct (clip_notes E pedals start_time duration) as [pedals' | e].
  2:{ exists [CallClipNotes notes start_time duration;
              CallClipNotes pedals start_time duration].
      split; [cbn [snd log trace]; rewrite <- !app_assoc; reflexivity |].
      intros events st d [Heq | [Heq | []]]; injection Heq as <- <- <-;
        exists notes, pedals; auto. }
  destruct (GuitarSet.target_transform s) as [t |].
  - eexists [CallClipNotes notes start_time duration;
             CallClipNotes pedals start_time duration;
             CallTargetTransform _].
    split; [cbn [ext snd log trace]; rewrite <- !app_assoc; reflexivity |].
    intros events st d [Heq | [Heq | [Heq | []]]]; try discriminate;
      injection Heq as <- <- <-; exists notes, pedals; auto.
  - exists [CallClipNotes notes start_time duration;
            CallClipNotes pedals start_time duration].
    split; [cbn [ret snd log trace]; rewrite <- !app_assoc; reflexivity |].
    intros events st d [Heq | [Heq | []]]; injection Heq as <- <- <-;
      exists notes, pedals; auto.
Qed.

(** When the read and the two clippings succeed, the call hands the target
    with the clipped lists to the target transform, or returns it. *)
Lemma guitarset_load_target_data_run E (s : GuitarSet.self)
    midi_path start_time duration w notes pedals notes' pedals' :
  read_single_track_midi E midi_path (GuitarSet.extend_pedal s)
  = Ok (notes, pedals) ->
  clip_notes E notes start_time duration = Ok notes' ->
  clip_notes E pedals start_time duration = Ok pedals' ->
  fst (GuitarSet.load_target_data E s midi_path start_time duration w)
  = match GuitarSet.target_transform s with
    | Some t =>
        t (guitarset_target notes' pedals' start_time duration midi_path)
    | None =>
        Ok (guitarset_target notes' pedals' start_time duration midi_path)
    end.
Proof.
  intros Hread Hnotes Hpedals. unfold GuitarSet.load_target_data.
  unfold bind at 1, ext at 1. rewrite Hread.
  unfold bind at 1, ext at 1. rewrite Hnotes.
  unfold bind at 1, ext at 1. rewrite Hpedals.
  destruct (GuitarSet.target_transform s) as [t |]; reflexivity.
Qed.

(** C4.  In [GuitarSet.load_target_data] the sustain-pedal extension comes
    before the clipping.  In every run, returning or raising, the first
    external call is the MIDI read with the instance's [extend_pedal] flag,
    which is where the note offsets are extended, and every call of
    [clip_notes] comes after it, on a list that this read returned and with
    the window of the call.  In every returning run exactly these calls were
    made, in this order: the read, the clipping of the notes it returned,
    the clipping of the pedals it returned, and then the target transform
    if there is one; the target that is returned, or handed to the
    transform, holds the two clipped lists.  And the call does return such
    a target whenever the read and the two clippings succeed. *)
Theorem extension_precedes_clipping E (s : GuitarSet.self)
    midi_path start_time duration w :
  (exists rest,
      trace (snd (GuitarSet.load_target_data E s midi_path start_time
                    duration w))
      = (trace w
         ++ CallReadMidi midi_path (GuitarSet.extend_pedal s) :: rest)%list /\
      forall events st d,
        In (CallClipNotes events st d) rest ->
        exists notes pedals,
          read_single_track_midi E midi_path (GuitarSet.extend_pedal s)
          = Ok (notes, pedals) /\
          (events = notes \/ events = pedals) /\
          st = start_time /\ d = duration) /\
  (forall result w',
      GuitarSet.load_target_data E s midi_path start_time duration w
      = (Ok result, w') ->
      exists notes pedals notes' pedals',
        read_single_track_midi E midi_path (GuitarSet.extend_pedal s)
        = Ok (notes, pedals) /\
        clip_notes E notes start_time duration = Ok notes' /\
        clip_notes E pedals start_time duration = Ok pedals' /\
        match GuitarSet.target_transform s with
        | Some t =>
            t (guitarset_target notes' pedals' start_time duration midi_path)
            = Ok result
        | None =>
            result
            = guitarset_target notes' pedals' start_time duration midi_path
        end /\
        guitarset_target notes' pedals' start_time duration midi_path
          !! "note" = Some (VEvents notes') /\
        guitarset_target notes' pedals' start_time duration midi_path
          !! "pedal" = Some (VEvents pedals') /\
        trace w'
        = (trace w
           ++ [CallReadMidi midi_path (GuitarSet.extend_pedal s);
               CallClipNotes notes start_time duration;
               CallClipNotes pedals start_time duration]
           ++ match GuitarSet.target_transform s with
              | Some t =>
                  [CallTargetTransform
                     (guitarset_target notes' pedals' start_time duration
                        midi_path)]
              | None => []
              end)%list) /\
  (forall notes pedals notes' pedals',
      read_single_track_midi E midi_path (GuitarSet.extend_pedal s)
      = Ok (notes, pedals) ->
      clip_notes E notes start_time duration = Ok notes' ->
      clip_notes E pedals start_time duration = Ok pedals' ->
      fst (GuitarSet.load_target_data E s midi_path start_time duration w)
      = match GuitarSet.target_transform s with
        | Some t =>
            t (guitarset_target notes' pedals' start_time duration midi_path)
        | None =>
            Ok (guitarset_target notes' pedals' start_time duration midi_path)
        end).
Proof.
  split; [apply clip_calls_follow_the_read |]. split.
  - intros result w' H.
    apply guitarset_load_target_data_Ok in H
      as (notes & pedals & notes' & pedals'
          & Hread & Hnotes & Hpedals & Hres & Htrace).
    exists notes, pedals, notes', pedals'.
    repeat (split; [assumption |]).
    split; [reflexivity |]. split; [reflexivity | exact Htrace].
  - intros notes pedals notes' pedals'.
    apply guitarset_load_target_data_run.
Qed.

(** On the fixture, with the window [10, 15): the call returns, after the
    read and the two clippings, the target whose note list is the note 8-14
    clipped and re-based to 0-4. *)
Lemma extension_precedes_clipping_witness :
  let run :=
    GuitarSet.load_target_data Fixture.env0 (Fixture.guitarset0 None)
      "r/data/00_b.mid" 10 5 Fixture.w0 in
  is_Ok run = true /\
  returned run !! "note"
  = Some (VEvents [mkEvent 0 4 (Some 60%Z) (Some 100%Z)]) /\
  trace (snd run)
  = [ CallReadMidi "r/data/00_b.mid" true;
      CallClipNotes Fixture.notes0 10 5;
      CallClipNotes Fixture.pedals0 10 5 ].
Proof.
  cbv zeta. split; [reflexivity |].
  destruct (GuitarSet.load_target_data Fixture.env0 (Fixture.guitarset0 None)
              "r/data/00_b.mid" 10 5 Fixture.w0)
    as [[result | e] w1] eqn:H; [| discriminate].
  destruct (proj1 (proj2 (extension_precedes_clipping Fixture.env0
                            (Fixture.guitarset0 None) "r/data/00_b.mid"
                            10 5 Fixture.w0)) result w1 H)
    as (notes & pedals & notes' & pedals'
        & Hread & Hnotes & Hpedals & Hres & Hnote & _ & Htrace).
  injection Hread as <- <-. injection Hnotes as <-. injection Hpedals as <-.
  pose proof (Hres : result = _) as ->.
  unfold returned. cbn [fst snd]. split; [exact Hnote | exact Htrace].
Defined.

(** ** Assembling a Slakh2100 example *)

Lemma dict_getitem_float_Ok (d : dict) k f :
  dict_getitem_float d k = Ok f -> d !! k = Some (VFloat f).
Proof.
  unfold dict_getitem_float.
  destruct (d !! k) as [[] |]; intros H; try discriminate.
  injection H as ->. reflexivity.
Qed.

(** What a returning call of [Slakh2100.__getitem__] has done. *)
Lemma slakh_getitem_Ok E (s : Slakh2100.self) index w result w' :
  Slakh2100.__getitem__ E s index w = (Ok result, w') ->
  exists name audio_data question_data w1 w2,
    py_index (Slakh2100.audio_name s) index = Ok name /\
    let prefix := Path [Slakh2100.root s; Slakh2100.split s; name] in
    let full_data : dict :=
      dict_update
        (dict_update
           ({[ "dataset_name" := VStr "Slakh2100";
               "audio_path" := VStr (Path [prefix; "mix.flac"]) ]} : dict)
           audio_data)
        question_data in
    Slakh2100.load_audio E s (Path [prefix; "mix.flac"]) w
    = (Ok audio_data, w1) /\
    Slakh2100.load_question E s w1 = (Ok question_data, w2) /\
    if Slakh2100.load_target s then
      exists start_time clip_duration target_data,
        audio_data !! "start_time" = Some (VFloat start_time) /\
        audio_data !! "duration" = Some (VFloat clip_duration) /\
        Slakh2100.load_target_data E s
          (Path [prefix; "metadata.yaml"]) (Path [prefix; "all_src.mid"])
          (Path [prefix; "MIDI"]) start_time clip_duration w2
        = (Ok target_data, w') /\
        result = dict_update full_data target_data
    else result = full_data /\ w' = w2.
Proof.
  intros H. unfold Slakh2100.__getitem__ in H.
  apply bind_Ok in H as (name & w0 & Hname & H). inv_step Hname.
  apply bind_Ok in H as (audio_data & w1 & Haudio & H).
  apply bind_Ok in H as (question_data & w2 & Hquestion & H).
  exists name, audio_data, question_data, w1, w2. cbv zeta.
  repeat (split; [assumption |]).
  destruct (Slakh2100.load_target s).
  - apply bind_Ok in H as (st & w3 & Hst & H). inv_step Hst.
    apply bind_Ok in H as (d & w4 & Hd & H). inv_step Hd.
    apply bind_Ok in H as (target_data & w5 & Htarget & H).
    apply ret_Ok in H as [-> ->].
    exists st, d, target_data.
    split; [apply dict_getitem_float_Ok, Hst |].
    split; [apply dict_getitem_float_Ok, Hd |].
    split; [exact Htarget | reflexivity].
  - apply ret_Ok in H as [-> ->]. split; reflexivity.
Qed.

(** The dict returned by [Slakh2100.load_audio]. *)
Lemma slakh_load_audio_Ok E (s : Slakh2100.self) path w data w' :
  Slakh2100.load_audio E s path w = (Ok data, w') ->
  exists audio start_time duration,
    data = ({[ "audio" := VArray audio;
               "start_time" := VFloat start_time;
               "duration" := VFloat duration ]} : dict).
Proof.
  intros H. unfold Slakh2100.load_audio in H.
  apply bind_Ok in H as (audio_duration & w0 & Hd & H).
  apply bind_Ok in H as ([st cd] & w1 & Hcrop & H).
  apply bind_Ok in H as (audio & w3 & Hload & H).
  apply bind_Ok in H as (audio' & w4 & Ht & H).
  apply ret_Ok in H as [-> ->].
  eexists _, _, _. reflexivity.
Qed.

Lemma dict_update_is_Some (d other : dict) k :
  is_Some (d !! k) -> is_Some (dict_update d other !! k).
Proof.
  intros H. unfold dict_update. apply lookup_union_is_Some. right. exact H.
Qed.

Lemma dict_update_new_is_Some (d other : dict) k :
  is_Some (other !! k) -> is_Some (dict_update d other !! k).
Proof.
  intros H. unfold dict_update. apply lookup_union_is_Some. left. exact H.
Qed.

(** [Slakh2100.__getitem__] with [load_target] set returns, when it
    returns, a dict holding the metadata, the audio, the window and the
    question, merged with the target dict; without a target transform the
    target is the list of tracks. *)
Lemma slakh_getitem_complete E (s : Slakh2100.self) index w result w' :
  Slakh2100.load_target s = true ->
  Slakh2100.__getitem__ E s index w = (Ok result, w') ->
  Forall (fun k => is_Some (result !! k))
    [ "dataset_name"; "audio_path"; "audio"; "start_time"; "duration";
      "question" ] /\
  (Slakh2100.target_transform s = None ->
   exists tracks, result !! "tracks" = Some (VTracks tracks)).
Proof.
  intros Htarget H.
  apply slakh_getitem_Ok in H
    as (name & audio_data & question_data & w1 & w2 & _ & H).
  cbv zeta in H. destruct H as (Haudio & Hquestion & H).
  rewrite Htarget in H.
  destruct H as (st & d & target_data & _ & _ & Hload & ->).
  apply slakh_load_audio_Ok in Haudio as (audio & st' & d' & ->).
  unfold Slakh2100.load_question in Hquestion. inv_run Hquestion.
  apply ret_Ok in Hquestion as [-> _].
  split.
  - repeat constructor; apply dict_update_is_Some;
      first [ apply dict_update_new_is_Some; eexists; reflexivity
            | apply dict_update_is_Some;
              first [ apply dict_update_new_is_Some; eexists; reflexivity
                    | eexists; reflexivity ] ].
  - intros Hnone.
    apply slakh_load_target_data_Ok in Hload
      as (meta & stems & beats & downbeats & tracks & _ & _ & _ & _ & Hres & _).
    rewrite Hnone in Hres. subst target_data.
    exists tracks. unfold dict_update. apply lookup_union_Some_l.
    reflexivity.
Qed.

(** ** Assembling a GuitarSet example *)

(** C1.  [GuitarSet.__getitem__] never returns an example: for every
    instance, index and world the call either raises or returns [None].  Its
    body stops after the audio is merged into [full_data]; the question and
    the target are not loaded and nothing is returned. *)
Theorem guitarset_getitem_returns_none E (s : GuitarSet.self) index w :
  fst (GuitarSet.__getitem__ E s index w) = Ok None \/
  exists e, fst (GuitarSet.__getitem__ E s index w) = Raise e.
Proof.
  destruct (GuitarSet.__getitem__ E s index w) as [[r | e] w'] eqn:H.
  - left. unfold GuitarSet.__getitem__ in H. inv_run H.
    apply ret_Ok in H as [-> _]. reflexivity.
  - right. exists e. reflexivity.
Qed.

(** On the fixture the index 0 is valid and the audio loads; the call
    returns [None] after the duration query and the audio load. *)
Example guitarset_getitem_fixture :
  GuitarSet.__getitem__ Fixture.env0 (Fixture.guitarset0 None) 0 Fixture.w0
  = (Ok None,
     mkWorld 0 [ CallGetDuration "r/data/00_b.wav";
                 CallLoad "r/data/00_b.wav" 44100 0 (Some 30%float) ]).
Proof. reflexivity. Qed.

(** ** Clipping of the target events *)

Lemma read_calls_are_not_clip_calls extend_pedal midis_dir tracks :
  List.filter is_clip_call (map (read_call extend_pedal midis_dir) tracks)
  = [].
Proof. induction tracks as [| t tracks IH]; [reflexivity | exact IH]. Qed.

(** [Slakh2100.load_target_data] makes no call of [clip_notes]. *)
Lemma slakh_load_target_data_no_clip E (s : Slakh2100.self)
    meta_yaml mix_midi_path midis_dir start_time clip_duration w result w' :
  Slakh2100.load_target_data E s meta_yaml mix_midi_path midis_dir
    start_time clip_duration w = (Ok result, w') ->
  List.filter is_clip_call (trace w') = List.filter is_clip_call (trace w).
Proof.
  intros H.
  apply slakh_load_target_data_Ok in H
    as (meta & stems & beats & downbeats & tracks & _ & _ & _ & _ & _ & ->).
  rewrite !List.filter_app, read_calls_are_not_clip_calls.
  destruct (Slakh2100.target_transform s); cbn [List.filter is_clip_call app];
    rewrite app_nil_r; reflexivity.
Qed.

(** C2, as the code has it.  [GuitarSet.load_target_data] passes the note
    list and the pedal list read from the MIDI file through [clip_notes]
    with the window it is given, and the clipped lists are what the target
    transform receives (or what is returned without a transform).
    [Slakh2100.load_target_data] never calls [clip_notes]: every track holds
    the note and pedal lists as read from its stem's MIDI file, and the
    window is stored under [start_time] and [clip_duration] in the dict that
    the target transform receives (or that is returned).  The window that
    [Slakh2100.__getitem__] gives to [load_target_data] is the one of the
    audio: the [start_time] and [duration] entries of the audio dict. *)
Theorem target_events_and_window E :
  (forall (s : GuitarSet.self) midi_path start_time duration w result w',
      GuitarSet.load_target_data E s midi_path start_time duration w
      = (Ok result, w') ->
      exists notes pedals notes' pedals',
        read_single_track_midi E midi_path (GuitarSet.extend_pedal s)
        = Ok (notes, pedals) /\
        clip_notes E notes start_time duration = Ok notes' /\
        clip_notes E pedals start_time duration = Ok pedals' /\
        match GuitarSet.target_transform s with
        | Some t =>
            t (guitarset_target notes' pedals' start_time duration midi_path)
            = Ok result
        | None =>
            result
            = guitarset_target notes' pedals' start_time duration midi_path
        end /\
        trace w'
        = (trace w
           ++ [CallReadMidi midi_path (GuitarSet.extend_pedal s);
               CallClipNotes notes start_time duration;
               CallClipNotes pedals start_time duration]
           ++ match GuitarSet.target_transform s with
              | Some t =>
                  [CallTargetTransform
                     (guitarset_target notes' pedals' start_time duration
                        midi_path)]
              | None => []
              end)%list) /\
  (forall (s : Slakh2100.self) meta_yaml mix_midi_path midis_dir
          start_time clip_duration w result w',
      Slakh2100.load_target_data E s meta_yaml mix_midi_path midis_dir
        start_time clip_duration w = (Ok result, w') ->
      List.filter is_clip_call (trace w') = List.filter is_clip_call (trace w) /\
      exists meta stems beats downbeats tracks,
        yaml_load E meta_yaml = Ok meta /\
        yaml_getitem meta "stems" = Ok (YMap stems) /\
        Forall2 (track_of_stem E (Slakh2100.extend_pedal s) midis_dir)
          (List.filter (fun st => midi_saved (snd st)) stems) tracks /\
        match Slakh2100.target_transform s with
        | Some t =>
            t (slakh_data start_time clip_duration beats downbeats tracks)
            = Ok result
        | None =>
            result = slakh_data start_time clip_duration beats downbeats tracks
        end) /\
  (forall (s : Slakh2100.self) index w result w',
      Slakh2100.load_target s = true ->
      Slakh2100.__getitem__ E s index w = (Ok result, w') ->
      exists name audio_data w1 w2 start_time clip_duration target_data,
        py_index (Slakh2100.audio_name s) index = Ok name /\
        let prefix := Path [Slakh2100.root s; Slakh2100.split s; name] in
        Slakh2100.load_audio E s (Path [prefix; "mix.flac"]) w
        = (Ok audio_data, w1) /\
        audio_data !! "start_time" = Some (VFloat start_time) /\
        audio_data !! "duration" = Some (VFloat clip_duration) /\
        Slakh2100.load_target_data E s
          (Path [prefix; "metadata.yaml"]) (Path [prefix; "all_src.mid"])
          (Path [prefix; "MIDI"]) start_time clip_duration w2
        = (Ok target_data, w')).
Proof.
  split; [| split].
  - intros s midi_path start_time duration w result w'.
    apply guitarset_load_target_data_Ok.
  - intros s meta_yaml mix_midi_path midis_dir start_time clip_duration
           w result w' H.
    split; [exact (slakh_load_target_data_no_clip _ _ _ _ _ _ _ _ _ _ H) |].
    apply slakh_load_target_data_Ok in H
      as (meta & stems & beats & downbeats & tracks
          & Hmeta & Hstems & _ & Hall & Hres & _).
    exists meta, stems, beats, downbeats, tracks. auto.
  - intros s index w result w' Htarget H.
    apply slakh_getitem_Ok in H
      as (name & audio_data & question_data & w1 & w2 & Hname & H).
    cbv zeta in H. destruct H as (Haudio & _ & H). rewrite Htarget in H.
    destruct H as (st & d & target_data & Hst & Hd & Hload & _).
    exists name, audio_data, w1, w2, st, d, target_data. cbv zeta. auto.
Qed.

(** On the fixture, with the crop [10, 15): the single-track target holds
    the note 8-14 clipped and re-based to 0-4, and the note 20-21 is gone. *)
Lemma target_events_and_window_witness :
  exists result,
    fst (GuitarSet.load_target_data Fixture.env0 (Fixture.guitarset0 None)
           "r/data/00_b.mid" 10 5 Fixture.w0) = Ok result /\
    result !! "note"
    = Some (VEvents [mkEvent 0 4 (Some 60%Z) (Some 100%Z)]).
Proof.
  destruct (proj1 (target_events_and_window Fixture.env0)
              (Fixture.guitarset0 None) "r/data/00_b.mid"
              10%float 5%float Fixture.w0 _ _ eq_refl)
    as (notes & pedals & notes' & pedals' & Hread & Hn & Hp & Hres & _).
  injection Hread as <- <-. injection Hn as <-. injection Hp as <-.
  eexists. split; reflexivity.
Defined.

(** C2, as stated, fails for [Slakh2100]: on the fixture the audio window is
    [10, 15), the first track's note list is the list read from the MIDI
    file (notes 8-14 and 20-21), which is not its clipping to the window
    (the single note 0-4), and the run contains no call of [clip_notes]. *)
Lemma slakh_target_events_not_clipped :
  let run :=
    Slakh2100.__getitem__ Fixture.env0 (Fixture.slakh0 (Some Fixture.crop0))
      0 Fixture.w0 in
  let track := Fixture.track_S00 in
  is_Ok run = true /\
  returned run !! "start_time" = Some (VFloat 10) /\
  returned run !! "duration" = Some (VFloat 5) /\
  returned run !! "tracks" = Some (VTracks [track; Fixture.track_S02]) /\
  read_single_track_midi Fixture.env0
    (Path [Fixture.midis_dir0; track_name track ++ ".mid"]) true
  = Ok (Fixture.notes0, Fixture.pedals0) /\
  note track = Fixture.notes0 /\
  clip_notes Fixture.env0 Fixture.notes0 10 5
  = Ok [mkEvent 0 4 (Some 60%Z) (Some 100%Z)] /\
  note track <> [mkEvent 0 4 (Some 60%Z) (Some 100%Z)] /\
  List.filter is_clip_call (trace (snd run)) = [].
Proof.
  cbv zeta.
  repeat (split; [vm_compute; reflexivity |]).
  split; [| vm_compute; reflexivity].
  cbn. discriminate.
Qed.
(** ** Randomness *)

(** The prompt is the element of the list at the position drawn from the
    global generator. *)
Lemma question_drawn_from_global_generator E w :
  random_choice E questions w
  = (match nth_error questions (N.to_nat (fst (randbelow E 5 (rng w)))) with
     | Some q => Ok q
     | None => Raise IndexError
     end,
     mkWorld (snd (randbelow E 5 (rng w))) (trace w ++ [CallChoice 5])).
Proof.
  unfold random_choice, questions, ext_random.
  change (N.of_nat (length _)) with 5%N.
  destruct (randbelow E 5 (rng w)) as [i s']. reflexivity.
Qed.

Lemma read_calls_are_target_calls extend_pedal midis_dir tracks :
  List.filter is_target_call (map (read_call extend_pedal midis_dir) tracks)
  = map (read_call extend_pedal midis_dir) tracks.
Proof.
  induction tracks as [| t tracks IH]; [reflexivity |].
  cbn. f_equal. exact IH.
Qed.






(** ** The GuitarSet metadata *)

(** C8.  [GuitarSet.load_meta] keeps no rows at all: for every table, root
    and split the call raises.  The key of [df[...]] on lines 76 and 78 is a
    single [bool] (whether the rendering of the whole column starts with
    "05"), which pandas looks up as a column label and does not find; the
    rows are never filtered by their own prefix. *)
Theorem load_meta_always_raises E root split meta_csv w :
  exists e,
    fst (GuitarSet.load_meta E root split meta_csv w) = Raise e /\
    (read_csv E meta_csv = Raise e \/
     e = KeyError "File Path" \/
     exists key, e = KeyErrorBool key).
Proof.
  unfold GuitarSet.load_meta. unfold bind at 1, ext at 1.
  destruct (read_csv E meta_csv) as [df | e].
  2:{ exists e. split; [reflexivity | left; reflexivity]. }
  unfold bind at 1, lift at 1. cbn [pandas_getitem].
  destruct (index_of "File Path" (columns df)) as [i |].
  2:{ eexists. split; [reflexivity | right; left; reflexivity]. }
  unfold bind at 1, lift at 1. cbn [key_error].
  eexists. split; [reflexivity | right; right; eexists; reflexivity].
Qed.

(** The fixture table has the rows 05_a.wav and 00_b.wav.  With the split
    "test" the row 05_a.wav should be kept, with the split "train" the row
    00_b.wav; both calls raise [KeyError]. *)
Example load_meta_fixture :
  fst (GuitarSet.load_meta Fixture.env0 "r" "test" "r/metadata.csv"
         Fixture.w0) = Raise (KeyErrorBool false) /\
  fst (GuitarSet.load_meta Fixture.env0 "r" "train" "r/metadata.csv"
         Fixture.w0) = Raise (KeyErrorBool true).
Proof. split; reflexivity. Qed.

Lemma mapM_length {A B} (f : A -> M B) xs :
  forall w ys w', mapM f xs w = (Ok ys, w') -> length ys = length xs.
Proof.
  induction xs as [| x xs IH]; intros w ys w' H; cbn [mapM] in H.
  - apply ret_Ok in H as [-> _]. reflexivity.
  - inv_run H. apply ret_Ok in H as [-> _].
    cbn [length]. f_equal. eapply IH. eassumption.
Qed.

Lemma pandas_getitem_length obj key col :
  pandas_getitem obj key = Ok col ->
  exists df, obj = PFrame df /\ length (values col) = length (rows df).
Proof.
  destruct obj as [df | ser]; [| discriminate].
  destruct key as [name | b]; [| discriminate]. cbn [pandas_getitem].
  destruct (index_of name (columns df)); [| discriminate].
  intros H. injection H as <-. exists df. split; [reflexivity |].
  cbn [values]. unfold column. apply length_map.
Qed.

Lemma py_index_in_range {A} (l : list A) (index : nat) :
  (index < length l)%nat -> exists x, py_index l (Z.of_nat index) = Ok x.
Proof.
  intros H. unfold py_index.
  destruct (Z.ltb_spec (Z.of_nat index) 0); [lia |].
  destruct (Z.leb_spec 0 (Z.of_nat index)); [| lia].
  destruct (Z.ltb_spec (Z.of_nat index) (Z.of_nat (length l))); [| lia].
  cbn [andb]. rewrite Nat2Z.id.
  destruct (nth_error l index) as [x |] eqn:Hx; [exists x; reflexivity |].
  apply nth_error_None in Hx. lia.
Qed.

(** The five lists that lines 80-98 build have the length of the table. *)
Lemma build_meta_dict_lengths E root df w md w' :
  GuitarSet.build_meta_dict E root df w = (Ok md, w') ->
  exists frame,
    df = PFrame frame /\
    length (GuitarSet.audio_name md) = length (rows frame) /\
    length (GuitarSet.audio_path md) = length (rows frame) /\
    length (GuitarSet.midi_name md) = length (rows frame) /\
    length (GuitarSet.midi_path md) = length (rows frame) /\
    length (GuitarSet.duration md) = length (rows frame).
Proof.
  intros H. unfold GuitarSet.build_meta_dict in H. inv_run H.
  apply ret_Ok in H as [-> _]. cbn.
  apply pandas_getitem_length in Hrun as (frame & -> & Ha).
  apply pandas_getitem_length in Hrun0 as (frame' & Heq & Hm).
  injection Heq as <-.
  apply mapM_length in Hrun1. rewrite length_map in Hrun1.
  exists frame. rewrite !length_map. repeat split; congruence.
Qed.

(** C9.  The meta dict of a [GuitarSet] instance is built by lines 80-98 of
    [load_meta] from one table; whenever that construction returns, the five
    lists [audio_name], [audio_path], [midi_name], [midi_path] and
    [duration] have the same length, so for every index below [__len__()]
    the [audio_path] and [midi_path] entries read by [__getitem__] exist. *)
Theorem meta_dict_fields_aligned E root df w md w' :
  GuitarSet.build_meta_dict E root df w = (Ok md, w') ->
  length (GuitarSet.audio_path md) = length (GuitarSet.audio_name md) /\
  length (GuitarSet.midi_name md) = length (GuitarSet.audio_name md) /\
  length (GuitarSet.midi_path md) = length (GuitarSet.audio_name md) /\
  length (GuitarSet.duration md) = length (GuitarSet.audio_name md) /\
  forall (s : GuitarSet.self) (index : nat),
    GuitarSet.meta_dict s = md ->
    (index < GuitarSet.__len__ s)%nat ->
    exists audio_path midi_path,
      py_index (GuitarSet.audio_path md) (Z.of_nat index) = Ok audio_path /\
      py_index (GuitarSet.midi_path md) (Z.of_nat index) = Ok midi_path.
Proof.
  intros H.
  apply build_meta_dict_lengths in H
    as (frame & _ & Hname & Hapath & Hmname & Hmpath & Hdur).
  repeat (split; [congruence |]).
  intros s index Hs Hlt. unfold GuitarSet.__len__ in Hlt. rewrite Hs in Hlt.
  destruct (py_index_in_range (GuitarSet.audio_path md) index)
    as [audio_path Hap]; [lia |].
  destruct (py_index_in_range (GuitarSet.midi_path md) index)
    as [midi_path Hmp]; [lia |].
  exists audio_path, midi_path. split; assumption.
Qed.

(** On the fixture table the construction returns two items. *)
Lemma meta_dict_fields_aligned_witness :
  let md :=
    GuitarSet.mkMetaDict
      [ "05_a.wav"; "00_b.wav" ] [ "r/data/05_a.wav"; "r/data/00_b.wav" ]
      [ "05_a.mid"; "00_b.mid" ] [ "r/data/05_a.mid"; "r/data/00_b.mid" ]
      [ 30%float; 30%float ] in
  fst (GuitarSet.build_meta_dict Fixture.env0 "r" (PFrame Fixture.table0)
         Fixture.w0) = Ok md /\
  length (GuitarSet.duration md) = length (GuitarSet.audio_name md).
Proof.
  cbv zeta. split; [reflexivity |].
  exact (proj1 (proj2 (proj2 (proj2
           (meta_dict_fields_aligned Fixture.env0 "r" (PFrame Fixture.table0)
              Fixture.w0 _ _ eq_refl))))).
Defined.

(** The same for the meta dict of an instance returned by [__init__], whose
    [load_meta] ends with that construction.  (As the code stands no call
    returns: the row selection before it raises.) *)
Corollary init_fields_aligned E root split sr crop transform load_target
    extend_pedal target_transform w s w' :
  GuitarSet.__init__ E root split sr crop transform load_target extend_pedal
    target_transform w = (Ok s, w') ->
  length (GuitarSet.audio_path (GuitarSet.meta_dict s))
  = length (GuitarSet.audio_name (GuitarSet.meta_dict s)) /\
  length (GuitarSet.midi_path (GuitarSet.meta_dict s))
  = length (GuitarSet.audio_name (GuitarSet.meta_dict s)).
Proof.
  intros H. unfold GuitarSet.__init__ in H. inv_run H.
  apply ret_Ok in H as [-> _]. cbn [GuitarSet.meta_dict].
  unfold GuitarSet.load_meta in Hrun. inv_run Hrun.
  apply build_meta_dict_lengths in Hrun
    as (frame & _ & Hname & Hapath & _ & Hmpath & _).
  split; congruence.
Qed.

(** * Further properties of the two classes *)

(** ** What a computation leaves untouched *)

Section Preserves.
Context {S : Type} (f : world -> S).

Lemma preserves_ret {A} (a : A) : preserves f (ret a).
Proof. intros w. reflexivity. Qed.

Lemma preserves_raise {A} e : preserves f (@raise A e).
Proof. intros w. reflexivity. Qed.

Lemma preserves_lift {A} (r : result A) : preserves f (lift r).
Proof. intros w. reflexivity. Qed.

Lemma preserves_bind {A B} (m : M A) (k : A -> M B) :
  preserves f m -> (forall a, preserves f (k a)) -> preserves f (bind m k).
Proof.
  intros Hm Hk w. unfold bind. specialize (Hm w).
  destruct (m w) as [[a | e] w1]; cbn [snd] in *.
  - rewrite Hk. exact Hm.
  - exact Hm.
Qed.

Lemma preserves_ext {A} c (r : result A) :
  (forall w, f (log c w) = f w) -> preserves f (ext c r).
Proof. intros H w. apply H. Qed.

End Preserves.

Lemma target_calls_log c w :
  is_target_call c = false -> target_calls (log c w) = target_calls w.
Proof.
  intros H. unfold target_calls, log. cbn [trace].
  rewrite List.filter_app. cbn [List.filter]. rewrite H. apply app_nil_r.
Qed.

Lemma target_calls_ext_random {A} c (g : N -> result A * N) :
  is_target_call c = false -> preserves target_calls (ext_random c g).
Proof.
  intros H w. unfold ext_random. destruct (g (rng w)) as [r s'].
  cbn [snd]. unfold target_calls. cbn [trace].
  rewrite List.filter_app. cbn [List.filter]. rewrite H. apply app_nil_r.
Qed.

(** ** The audio window *)

(** What a returning call of [Slakh2100.load_audio] has done. *)
Lemma slakh_load_audio_inv E (s : Slakh2100.self) path w data w' :
  Slakh2100.load_audio E s path w = (Ok data, w') ->
  exists d st cd audio audio',
    get_duration E path = Ok d /\
    match Slakh2100.crop s with
    | Some c =>
        exists clip, c d (rng w) = (Ok (st, clip), rng w') /\ cd = Some clip
    | None => st = 0%float /\ cd = None /\ rng w' = rng w
    end /\
    load E path (Slakh2100.sr s) st cd = Ok audio /\
    match Slakh2100.transform s with
    | Some t => t audio = Ok audio'
    | None => audio' = audio
    end /\
    data = ({[ "audio" := VArray audio';
               "start_time" := VFloat st;
               "duration" :=
                 VFloat match cd with
                        | Some clip => if float_truthy clip then clip else d
                        | None => d
                        end ]} : dict) /\
    trace w'
    = (trace w
       ++ [CallGetDuration path]
       ++ match Slakh2100.crop s with
          | Some _ => [CallCrop d]
          | None => []
          end
       ++ [CallLoad path (Slakh2100.sr s) st cd]
       ++ match Slakh2100.transform s with
          | Some _ => [CallTransform audio]
          | None => []
          end)%list.
Proof.
  intros H. unfold Slakh2100.load_audio in H.
  apply bind_Ok in H as (d & w1 & Hd & H). inv_step Hd.
  apply bind_Ok in H as ([st cd] & w2 & Hcrop & H).
  apply bind_Ok in H as (audio & w3 & Hload & H). inv_step Hload.
  apply bind_Ok in H as (audio' & w4 & Ht & H).
  apply ret_Ok in H as [-> ->].
  exists d, st, cd, audio, audio'. split; [exact Hd |].
  assert (Hw4 :
    rng w4 = rng w2 /\
    match Slakh2100.transform s with
    | Some t => t audio = Ok audio'
    | None => audio' = audio
    end /\
    trace w4
    = (trace w2 ++ [CallLoad path (Slakh2100.sr s) st cd]
       ++ match Slakh2100.transform s with
          | Some _ => [CallTransform audio]
          | None => []
          end)%list).
  { destruct (Slakh2100.transform s) as [t |]; inv_step Ht.
    - repeat split; [exact Ht |]. cbn [log trace].
      rewrite <- app_assoc. reflexivity.
    - repeat split. }
  destruct Hw4 as (Hrng & Htrans & Htrace).
  destruct (Slakh2100.crop s) as [c |].
  - apply bind_Ok in Hcrop as ([st' clip] & w5 & Hc & Hret).
    apply ret_Ok in Hret as [Heq ->]. injection Heq as -> ->.
    unfold ext_random in Hc. cbn [log rng trace] in Hc.
    destruct (c d (rng w)) as [r s'] eqn:Hcall.
    injection Hc as -> <-. cbn [rng trace] in *.
    split; [exists clip; rewrite Hrng; split; reflexivity |].
    repeat (split; [first [assumption | reflexivity] |]).
    rewrite Htrace, <- !app_assoc. reflexivity.
  - apply ret_Ok in Hcrop as [Heq ->]. injection Heq as -> ->.
    split; [repeat split; exact Hrng |].
    repeat (split; [first [assumption | reflexivity] |]).
    rewrite Htrace. cbn [log trace]. rewrite <- !app_assoc. reflexivity.
Qed.

(** What a returning call of [GuitarSet.load_audio_data] has done. *)
Lemma guitarset_load_audio_data_inv E (s : GuitarSet.self) path w data w' :
  GuitarSet.load_audio_data E s path w = (Ok data, w') ->
  exists d st clip audio audio',
    get_duration E path = Ok d /\
    match GuitarSet.crop s with
    | Some c => c d (rng w) = (Ok (st, clip), rng w')
    | None => st = 0%float /\ clip = d /\ rng w' = rng w
    end /\
    load E path (GuitarSet.sr s) st (Some clip) = Ok audio /\
    match GuitarSet.transform s with
    | Some t => t audio = Ok audio'
    | None => audio' = audio
    end /\
    data = ({[ "audio" := VArray audio';
               "start_time" := VFloat st;
               "duration" := VFloat clip ]} : dict) /\
    trace w'
    = (trace w
       ++ [CallGetDuration path]
       ++ match GuitarSet.crop s with
          | Some _ => [CallCrop d]
          | None => []
          end
       ++ [CallLoad path (GuitarSet.sr s) st (Some clip)]
       ++ match GuitarSet.transform s with
          | Some _ => [CallTransform audio]
          | None => []
          end)%list.
Proof.
  intros H. unfold GuitarSet.load_audio_data in H.
  apply bind_Ok in H as (d & w1 & Hd & H). inv_step Hd.
  apply bind_Ok in H as ([st clip] & w2 & Hcrop & H).
  apply bind_Ok in H as (audio & w3 & Hload & H). inv_step Hload.
  apply bind_Ok in H as (audio' & w4 & Ht & H).
  apply ret_Ok in H as [-> ->].
  exists d, st, clip, audio, audio'. split; [exact Hd |].
  assert (Hw4 :
    rng w4 = rng w2 /\
    match GuitarSet.transform s with
    | Some t => t audio = Ok audio'
    | None => audio' = audio
    end /\
    trace w4
    = (trace w2 ++ [CallLoad path (GuitarSet.sr s) st (Some clip)]
       ++ match GuitarSet.transform s with
          | Some _ => [CallTransform audio]
          | None => []
          end)%list).
  { destruct (GuitarSet.transform s) as [t |]; inv_step Ht.
    - repeat split; [exact Ht |]. cbn [log trace].
      rewrite <- app_assoc. reflexivity.
    - repeat split. }
  destruct Hw4 as (Hrng & Htrans & Htrace).
  destruct (GuitarSet.crop s) as [c |].
  - unfold ext_random in Hcrop. cbn [log rng trace] in Hcrop.
    destruct (c d (rng w)) as [r s'] eqn:Hcall.
    injection Hcrop as -> <-. cbn [rng trace] in *.
    split; [rewrite Hrng; reflexivity |].
    repeat (split; [first [assumption | reflexivity] |]).
    rewrite Htrace, <- !app_assoc. reflexivity.
  - apply ret_Ok in Hcrop as [Heq ->]. injection Heq as -> ->.
    split; [repeat split; exact Hrng |].
    repeat (split; [first [assumption | reflexivity] |]).
    rewrite Htrace. cbn [log trace]. rewrite <- !app_assoc. reflexivity.
Qed.

(** X1.  [Slakh2100.load_audio] with a crop reports the crop's start time
    and loads the audio with the crop's window, but the reported [duration]
    is the crop's clip duration only when that is not 0.0: a crop of length
    0.0 is reported with the duration of the whole file. *)
Theorem slakh_reported_duration E (s : Slakh2100.self) path w c data w' :
  Slakh2100.crop s = Some c ->
  Slakh2100.load_audio E s path w = (Ok data, w') ->
  exists d st clip,
    get_duration E path = Ok d /\
    c d (rng w) = (Ok (st, clip), rng w') /\
    In (CallLoad path (Slakh2100.sr s) st (Some clip)) (trace w') /\
    data !! "start_time" = Some (VFloat st) /\
    data !! "duration"
    = Some (VFloat (if float_truthy clip then clip else d)).
Proof.
  intros Hcrop H.
  apply slakh_load_audio_inv in H
    as (d & st & cd & audio & audio' & Hd & Hc & _ & _ & -> & Htrace).
  rewrite Hcrop in Hc, Htrace. destruct Hc as (clip & Hc & ->).
  exists d, st, clip. repeat (split; [assumption |]).
  split; [| split; reflexivity].
  rewrite Htrace. apply in_or_app. right. cbn. auto.
Qed.

(** The fixture file lasts 30 seconds; the crop of length 0.0 at 10 is
    reported as a window of 30 seconds at 10. *)
Lemma slakh_reported_duration_witness :
  let run :=
    Slakh2100.load_audio Fixture.env0 (Fixture.slakh0 (Some Fixture.crop_zero))
      "r/train/Track00001/mix.flac" Fixture.w0 in
  is_Ok run = true /\
  returned run !! "duration" = Some (VFloat 30) /\
  exists d st clip,
    get_duration Fixture.env0 "r/train/Track00001/mix.flac" = Ok d /\
    Fixture.crop_zero d 0%N = (Ok (st, clip), rng (snd run)) /\
    In (CallLoad "r/train/Track00001/mix.flac" 44100 st (Some clip))
       (trace (snd run)) /\
    returned run !! "start_time" = Some (VFloat st) /\
    returned run !! "duration"
    = Some (VFloat (if float_truthy clip then clip else d)).
Proof.
  cbv zeta. split; [reflexivity |]. split; [vm_compute; reflexivity |].
  apply (slakh_reported_duration Fixture.env0
           (Fixture.slakh0 (Some Fixture.crop_zero))
           "r/train/Track00001/mix.flac" Fixture.w0 Fixture.crop_zero
           _ _ eq_refl).
  unfold returned.
  destruct (Slakh2100.load_audio Fixture.env0
              (Fixture.slakh0 (Some Fixture.crop_zero))
              "r/train/Track00001/mix.flac" Fixture.w0) as [[d | e] w1] eqn:H;
    [reflexivity | discriminate].
Defined.

(** X2.  [GuitarSet.load_audio_data] reports the window it loaded: the
    [start_time] and [duration] of the returned dict are the offset and the
    duration given to the audio load, with or without a crop; with a crop
    they are what the crop returned, also when the clip duration is 0.0. *)
Theorem guitarset_reports_loaded_window E (s : GuitarSet.self)
    path w data w' :
  GuitarSet.load_audio_data E s path w = (Ok data, w') ->
  exists d st clip,
    get_duration E path = Ok d /\
    match GuitarSet.crop s with
    | Some c => c d (rng w) = (Ok (st, clip), rng w')
    | None => st = 0%float /\ clip = d
    end /\
    In (CallLoad path (GuitarSet.sr s) st (Some clip)) (trace w') /\
    data !! "start_time" = Some (VFloat st) /\
    data !! "duration" = Some (VFloat clip).
Proof.
  intros H.
  apply guitarset_load_audio_data_inv in H
    as (d & st & clip & audio & audio' & Hd & Hc & _ & _ & -> & Htrace).
  exists d, st, clip. split; [exact Hd |].
  split; [destruct (GuitarSet.crop s); [exact Hc | tauto] |].
  split; [| split; reflexivity].
  rewrite Htrace. apply in_or_app. right.
  apply in_or_app. right. apply in_or_app. right. cbn. auto.
Qed.

(** With the crop of length 0.0 at 10 the reported duration is 0.0. *)
Lemma guitarset_reports_loaded_window_witness :
  let run :=
    GuitarSet.load_audio_data Fixture.env0
      (Fixture.guitarset0 (Some Fixture.crop_zero))
      "r/data/00_b.wav" Fixture.w0 in
  is_Ok run = true /\
  returned run !! "start_time" = Some (VFloat 10) /\
  returned run !! "duration" = Some (VFloat 0).
Proof.
  cbv zeta. split; [reflexivity |].
  destruct (GuitarSet.load_audio_data Fixture.env0
              (Fixture.guitarset0 (Some Fixture.crop_zero))
              "r/data/00_b.wav" Fixture.w0) as [[data | e] w1] eqn:H;
    [| discriminate].
  destruct (guitarset_reports_loaded_window Fixture.env0
              (Fixture.guitarset0 (Some Fixture.crop_zero))
              "r/data/00_b.wav" Fixture.w0 data w1 H)
    as (d & st & clip & Hd & Hc & _ & Hst & Hdur).
  cbn in Hc. unfold Fixture.crop_zero in Hc. injection Hc as <- <- _.
  unfold returned. cbn [fst]. split; assumption.
Defined.

(** ** Index bounds *)

Lemma py_index_out_of_range {A} (l : list A) index :
  out_of_range index (length l) -> py_index l index = Raise IndexError.
Proof.
  unfold out_of_range, py_index. intros H.
  destruct (Z.ltb_spec index 0).
  - destruct (Z.leb_spec 0 (Z.of_nat (length l) + index)); [lia |].
    reflexivity.
  - destruct (Z.leb_spec 0 index); [| lia].
    destruct (Z.ltb_spec index (Z.of_nat (length l))); [lia | reflexivity].
Qed.

Lemma py_index_negative {A} (l : list A) (k : nat) :
  (0 < k <= length l)%nat ->
  py_index l (- Z.of_nat k) = py_index l (Z.of_nat (length l - k)).
Proof.
  intros H. unfold py_index.
  destruct (Z.ltb_spec (- Z.of_nat k) 0); [| lia].
  destruct (Z.ltb_spec (Z.of_nat (length l - k)) 0); [lia |].
  replace (Z.of_nat (length l) + - Z.of_nat k)%Z
    with (Z.of_nat (length l - k)) by lia.
  reflexivity.
Qed.

(** X3.  An index outside [-len, len) makes [__getitem__] of both classes
    raise [IndexError] at once: no file is touched, no external call is
    logged and the global generator is not advanced. *)
Theorem getitem_index_out_of_range E (sg : GuitarSet.self)
    (ss : Slakh2100.self) (index : Z) (w : world) :
  out_of_range index (length (GuitarSet.audio_path (GuitarSet.meta_dict sg))) ->
  out_of_range index (length (Slakh2100.audio_name ss)) ->
  GuitarSet.__getitem__ E sg index w = (Raise IndexError, w) /\
  Slakh2100.__getitem__ E ss index w = (Raise IndexError, w).
Proof.
  intros Hg Hs. split.
  - unfold GuitarSet.__getitem__, bind at 1, lift at 1.
    rewrite (py_index_out_of_range _ _ Hg). reflexivity.
  - unfold Slakh2100.__getitem__, bind at 1, lift at 1.
    rewrite (py_index_out_of_range _ _ Hs). reflexivity.
Qed.

(** Both fixture instances hold one item; the index 1 is out of range. *)
Lemma getitem_index_out_of_range_witness :
  GuitarSet.__getitem__ Fixture.env0 (Fixture.guitarset0 None) 1 Fixture.w0
  = (Raise IndexError, Fixture.w0) /\
  Slakh2100.__getitem__ Fixture.env0 (Fixture.slakh0 None) 1 Fixture.w0
  = (Raise IndexError, Fixture.w0).
Proof.
  apply (getitem_index_out_of_range Fixture.env0 (Fixture.guitarset0 None)
           (Fixture.slakh0 None) 1 Fixture.w0);
    unfold out_of_range; cbn; lia.
Defined.

(** X4.  Negative indices count from the end, as on a Python list: with
    [n] items, [__getitem__(-k)] for [0 < k <= n] is the same computation as
    [__getitem__(n - k)]. *)
Theorem getitem_negative_index E (sg : GuitarSet.self) (ss : Slakh2100.self)
    (n k : nat) (w : world) :
  length (GuitarSet.audio_path (GuitarSet.meta_dict sg)) = n ->
  length (GuitarSet.midi_path (GuitarSet.meta_dict sg)) = n ->
  length (Slakh2100.audio_name ss) = n ->
  (0 < k <= n)%nat ->
  GuitarSet.__getitem__ E sg (- Z.of_nat k) w
  = GuitarSet.__getitem__ E sg (Z.of_nat (n - k)) w /\
  Slakh2100.__getitem__ E ss (- Z.of_nat k) w
  = Slakh2100.__getitem__ E ss (Z.of_nat (n - k)) w.
Proof.
  intros Ha Hm Hs Hk. split.
  - unfold GuitarSet.__getitem__.
    rewrite !py_index_negative by lia. rewrite Ha, Hm. reflexivity.
  - unfold Slakh2100.__getitem__.
    rewrite py_index_negative by lia. rewrite Hs. reflexivity.
Qed.

Lemma getitem_negative_index_witness :
  Slakh2100.__getitem__ Fixture.env0 (Fixture.slakh0 None) (-1) Fixture.w0
  = Slakh2100.__getitem__ Fixture.env0 (Fixture.slakh0 None) 0 Fixture.w0.
Proof.
  exact (proj2 (getitem_negative_index Fixture.env0 (Fixture.guitarset0 None)
                  (Fixture.slakh0 None) 1 1 Fixture.w0
                  eq_refl eq_refl eq_refl (conj (le_n 1) (le_n 1)))).
Defined.

(** ** The keys of a Slakh2100 example *)

Lemma random_choice_no_target_call E {A} (seq : list A) :
  preserves target_calls (random_choice E seq).
Proof.
  unfold random_choice. destruct seq.
  - apply preserves_raise.
  - apply target_calls_ext_random. reflexivity.
Qed.

(** Decompose a computation that builds no target. *)
Ltac no_target_call :=
  repeat first
    [ apply preserves_ret
    | apply preserves_raise
    | apply preserves_lift
    | apply preserves_ext; intros ?; apply target_calls_log; reflexivity
    | apply target_calls_ext_random; reflexivity
    | apply random_choice_no_target_call
    | apply preserves_bind; [| intros ?]
    | match goal with
      | |- preserves _ (match ?x with _ => _ end) => destruct x
      end ].

Lemma slakh_question_data E (s : Slakh2100.self) w question_data w' :
  Slakh2100.load_question E s w = (Ok question_data, w') ->
  exists q, question_data = ({[ "question" := VStr q ]} : dict) /\
            In q questions /\
            rng w' = snd (randbelow E 5 (rng w)).
Proof.
  intros H. unfold Slakh2100.load_question in H.
  apply bind_Ok in H as (q & w1 & Hq & H). apply ret_Ok in H as [-> ->].
  rewrite question_drawn_from_global_generator in Hq.
  destruct (nth_error questions _) as [q' |] eqn:Hnth; [| discriminate].
  injection Hq as -> <-. exists q.
  split; [reflexivity |]. split; [| reflexivity].
  eapply nth_error_In. exact Hnth.
Qed.

(** X5.  With [load_target] off, [Slakh2100.__getitem__] makes no call that
    builds a target in any run (no metadata, beat or MIDI read, no target
    transform), and the dict it returns has exactly the six keys
    [dataset_name], [audio_path], [audio], [start_time], [duration] and
    [question]. *)
Theorem slakh_getitem_without_target E (s : Slakh2100.self) index w :
  Slakh2100.load_target s = false ->
  target_calls (snd (Slakh2100.__getitem__ E s index w)) = target_calls w /\
  forall result w',
    Slakh2100.__getitem__ E s index w = (Ok result, w') ->
    dom result
    = ({[ "dataset_name"; "audio_path"; "audio"; "start_time"; "duration";
          "question" ]} : gset string).
Proof.
  intros Hoff. split.
  - revert w.
    change (preserves target_calls (Slakh2100.__getitem__ E s index)).
    unfold Slakh2100.__getitem__, Slakh2100.load_audio,
      Slakh2100.load_question.
    rewrite Hoff. no_target_call.
  - intros result w' H.
    apply slakh_getitem_Ok in H
      as (name & audio_data & question_data & w1 & w2 & _ & H).
    cbv zeta in H. destruct H as (Haudio & Hquestion & H).
    rewrite Hoff in H. destruct H as [-> _].
    apply slakh_load_audio_Ok in Haudio as (audio & st & d & ->).
    apply slakh_question_data in Hquestion as (q & -> & _).
    unfold dict_update.
    rewrite !dom_union_L, !dom_insert_L, !dom_singleton_L.
    set_solver.
Qed.

Lemma slakh_getitem_without_target_witness :
  target_calls
    (snd (Slakh2100.__getitem__ Fixture.env0 Fixture.slakh_no_target 0
            Fixture.w0))
  = target_calls Fixture.w0.
Proof.
  exact (proj1 (slakh_getitem_without_target Fixture.env0
                  Fixture.slakh_no_target 0 Fixture.w0 eq_refl)).
Defined.

(** X6.  With [load_target] on and no target transform, the dict returned
    by [Slakh2100.__getitem__] has exactly ten keys; the target leaves the
    audio entries as [load_audio] returned them, its [start_time] is the
    audio's, and [clip_duration] repeats [duration]. *)
Theorem slakh_example_without_transform E (s : Slakh2100.self)
    index w result w' :
  Slakh2100.load_target s = true ->
  Slakh2100.target_transform s = None ->
  Slakh2100.__getitem__ E s index w = (Ok result, w') ->
  dom result
  = ({[ "dataset_name"; "audio_path"; "audio"; "start_time"; "duration";
        "question"; "clip_duration"; "beat"; "downbeat"; "tracks" ]}
     : gset string) /\
  exists name audio_data w1,
    py_index (Slakh2100.audio_name s) index = Ok name /\
    Slakh2100.load_audio E s
      (Path [Path [Slakh2100.root s; Slakh2100.split s; name]; "mix.flac"]) w
    = (Ok audio_data, w1) /\
    result !! "audio" = audio_data !! "audio" /\
    result !! "start_time" = audio_data !! "start_time" /\
    result !! "duration" = audio_data !! "duration" /\
    result !! "clip_duration" = audio_data !! "duration".
Proof.
  intros Hon Hnone H.
  apply slakh_getitem_Ok in H
    as (name & audio_data & question_data & w1 & w2 & Hname & H).
  cbv zeta in H. destruct H as (Haudio & Hquestion & H).
  rewrite Hon in H.
  destruct H as (st & d & target_data & Hst & Hd & Hload & ->).
  apply slakh_load_target_data_Ok in Hload
    as (meta & stems & beats & downbeats & tracks & _ & _ & _ & _ & Hres & _).
  rewrite Hnone in Hres. subst target_data.
  pose proof Haudio as Hinv.
  apply slakh_load_audio_Ok in Hinv as (audio & st' & d' & ->).
  apply slakh_question_data in Hquestion as (q & -> & _).
  split.
  - unfold dict_update, slakh_data.
    rewrite !dom_union_L, !dom_insert_L, !dom_singleton_L. set_solver.
  - exists name. eexists. exists w1.
    split; [exact Hname |]. split; [exact Haudio |].
    unfold dict_update, slakh_data.
    split; [reflexivity |].
    split; [rewrite Hst; reflexivity |].
    split; [reflexivity |].
    rewrite Hd. reflexivity.
Qed.

Lemma slakh_example_without_transform_witness :
  let run :=
    Slakh2100.__getitem__ Fixture.env0 (Fixture.slakh0 (Some Fixture.crop0))
      0 Fixture.w0 in
  is_Ok run = true /\
  dom (returned run)
  = ({[ "dataset_name"; "audio_path"; "audio"; "start_time"; "duration";
        "question"; "clip_duration"; "beat"; "downbeat"; "tracks" ]}
     : gset string).
Proof.
  cbv zeta. split; [reflexivity |].
  destruct (Slakh2100.__getitem__ Fixture.env0
              (Fixture.slakh0 (Some Fixture.crop0)) 0 Fixture.w0)
    as [[result | e] w1] eqn:H; [| discriminate].
  exact (proj1 (slakh_example_without_transform Fixture.env0
                  (Fixture.slakh0 (Some Fixture.crop0)) 0 Fixture.w0
                  result w1 eq_refl eq_refl H)).
Defined.

(** X7.  The target is merged last: every entry of the dict that
    [load_target_data] returned is in the example unchanged, also when a
    target transform returns an entry under a key of the audio dict or the
    question, whose value it then replaces. *)
Theorem slakh_target_entries_win E (s : Slakh2100.self) index w result w' :
  Slakh2100.load_target s = true ->
  Slakh2100.__getitem__ E s index w = (Ok result, w') ->
  exists name start_time clip_duration w2 target_data,
    py_index (Slakh2100.audio_name s) index = Ok name /\
    let prefix := Path [Slakh2100.root s; Slakh2100.split s; name] in
    Slakh2100.load_target_data E s
      (Path [prefix; "metadata.yaml"]) (Path [prefix; "all_src.mid"])
      (Path [prefix; "MIDI"]) start_time clip_duration w2
    = (Ok target_data, w') /\
    forall k v, target_data !! k = Some v -> result !! k = Some v.
Proof.
  intros Hon H.
  apply slakh_getitem_Ok in H
    as (name & audio_data & question_data & w1 & w2 & Hname & H).
  cbv zeta in H. destruct H as (_ & _ & H). rewrite Hon in H.
  destruct H as (st & d & target_data & _ & _ & Hload & ->).
  exists name, st, d, w2, target_data. cbv zeta.
  repeat (split; [assumption |]).
  intros k v Hk. unfold dict_update at 1. apply lookup_union_Some_l, Hk.
Qed.

(** A target transform that returns an [audio] entry: the example holds
    that entry, not the loaded audio. *)
Lemma slakh_target_entries_win_witness :
  let run :=
    Slakh2100.__getitem__ Fixture.env0 Fixture.slakh_override 0 Fixture.w0 in
  is_Ok run = true /\ returned run !! "audio" = Some VNone.
Proof.
  cbv zeta. split; [reflexivity |].
  destruct (Slakh2100.__getitem__ Fixture.env0 Fixture.slakh_override 0
              Fixture.w0) as [[result | e] w1] eqn:H; [| discriminate].
  destruct (slakh_target_entries_win Fixture.env0 Fixture.slakh_override 0
              Fixture.w0 result w1 eq_refl H)
    as (name & st & d & w2 & target_data & Hname & Hload & Hwin).
  apply Hwin. injection Hname as <-.
  cbv zeta in Hload. unfold Slakh2100.load_target_data in Hload.
  inv_run Hload. cbn [Slakh2100.target_transform Fixture.slakh_override]
    in Hload.
  apply ext_Ok in Hload as [Hload _]. injection Hload as <-. reflexivity.
Defined.

(** ** The order of the external calls *)

(** X9.  A returning call of [Slakh2100.__getitem__] makes its external
    calls in this order: the duration query of the track's [mix.flac], the
    crop when there is one, the audio load, the audio transform when there
    is one, one prompt choice among 5, and after that only calls that build
    the target, none when [load_target] is off. *)
Theorem slakh_getitem_call_order E (s : Slakh2100.self) index w result w' :
  Slakh2100.__getitem__ E s index w = (Ok result, w') ->
  exists name d st cd audio rest,
    py_index (Slakh2100.audio_name s) index = Ok name /\
    let audio_path :=
      Path [Path [Slakh2100.root s; Slakh2100.split s; name]; "mix.flac"] in
    trace w'
    = (trace w
       ++ [CallGetDuration audio_path]
       ++ match Slakh2100.crop s with
          | Some _ => [CallCrop d]
          | None => []
          end
       ++ [CallLoad audio_path (Slakh2100.sr s) st cd]
       ++ match Slakh2100.transform s with
          | Some _ => [CallTransform audio]
          | None => []
          end
       ++ [CallChoice 5]
       ++ rest)%list /\
    List.filter is_target_call rest = rest /\
    (Slakh2100.load_target s = false -> rest = []).
Proof.
  intros H.
  apply slakh_getitem_Ok in H
    as (name & audio_data & question_data & w1 & w2 & Hname & H).
  cbv zeta in H. destruct H as (Haudio & Hquestion & H).
  apply slakh_load_audio_inv in Haudio
    as (d & st & cd & audio & audio' & _ & _ & _ & _ & _ & Htrace1).
  unfold Slakh2100.load_question, bind in Hquestion.
  rewrite question_drawn_from_global_generator in Hquestion.
  destruct (nth_error questions _) as [q |]; [| discriminate].
  injection Hquestion as _ <-.
  assert (Hrest :
    exists rest,
      trace w' = (trace w1 ++ [CallChoice 5] ++ rest)%list /\
      List.filter is_target_call rest = rest /\
      (Slakh2100.load_target s = false -> rest = [])).
  { destruct (Slakh2100.load_target s).
    - destruct H as (st' & d' & target_data & _ & _ & Hload & _).
      apply slakh_load_target_data_Ok in Hload
        as (meta & stems & beats & downbeats & tracks
            & _ & _ & _ & _ & _ & Htrace).
      eexists. split; [| split].
      + rewrite Htrace. cbn [trace]. rewrite <- app_assoc. reflexivity.
      + rewrite !List.filter_app, read_calls_are_target_calls.
        destruct (Slakh2100.target_transform s); reflexivity.
      + discriminate.
    - destruct H as [_ ->]. exists []. cbn [trace].
      split; [reflexivity |]. split; [reflexivity |]. reflexivity. }
  destruct Hrest as (rest & Htrace & Hfilter & Hoff).
  exists name, d, st, cd, audio, rest. cbv zeta.
  split; [exact Hname |]. split; [| split; assumption].
  rewrite Htrace, Htrace1, <- !app_assoc. reflexivity.
Qed.

Lemma slakh_getitem_call_order_witness :
  let run :=
    Slakh2100.__getitem__ Fixture.env0 Fixture.slakh_no_target 0 Fixture.w0 in
  is_Ok run = true /\
  exists st cd,
    trace (snd run)
    = [ CallGetDuration "r/train/Track00001/mix.flac";
        CallLoad "r/train/Track00001/mix.flac" 44100 st cd;
        CallChoice 5 ].
Proof.
  cbv zeta. split; [vm_compute; reflexivity |].
  destruct (Slakh2100.__getitem__ Fixture.env0 Fixture.slakh_no_target 0
              Fixture.w0) as [[result | e] w1] eqn:H; [| discriminate].
  destruct (slakh_getitem_call_order Fixture.env0 Fixture.slakh_no_target 0
              Fixture.w0 result w1 H)
    as (name & d & st & cd & audio & rest & Hname & Htrace & _ & Hoff).
  exists st, cd. cbn [snd].
  rewrite Htrace, (Hoff eq_refl). injection Hname as <-. reflexivity.
Defined.

(** ** Stems that fail *)

Lemma bind_assoc {A B C} (m : M A) (f : A -> M B) (g : B -> M C) w :
  bind (bind m f) g w = bind m (fun a => bind (f a) g) w.
Proof. unfold bind. destruct (m w) as [[a | e] w1]; reflexivity. Qed.

(** The loop over a concatenation is the loop over the first part followed
    by the loop over the second part, started with the tracks built so
    far. *)
Lemma load_tracks_app E s midis_dir pre post :
  forall tracks w,
    Slakh2100.load_tracks E s midis_dir (pre ++ post) tracks w
    = bind (Slakh2100.load_tracks E s midis_dir pre tracks)
           (fun ts => Slakh2100.load_tracks E s midis_dir post ts) w.
Proof.
  induction pre as [| [name stem_data] pre IH]; intros tracks w;
    [reflexivity |].
  cbn [app Slakh2100.load_tracks].
  rewrite bind_assoc. apply bind_congr. intros saved w1 _.
  destruct (negb (truthy saved)); [apply IH |].
  repeat (rewrite bind_assoc; apply bind_congr; intros ? ? _).
  destruct a3 as [notes pedals]. apply IH.
Qed.

Lemma load_tracks_none_saved E s midis_dir stems :
  Forall (fun st : string * yaml =>
            exists v, yaml_getitem (snd st) "midi_saved" = Ok v /\
                      truthy v = false) stems ->
  forall tracks w,
    Slakh2100.load_tracks E s midis_dir stems tracks w = (Ok tracks, w).
Proof.
  induction 1 as [| [name stem_data] rest (v & Hget & Hv) _ IH];
    intros tracks w; [reflexivity |].
  rewrite (load_tracks_unsaved E s midis_dir name stem_data rest tracks v w
             Hget Hv).
  apply IH.
Qed.

(** When the stem after [pre] fails, the call fails with its error. *)
Lemma stem_failure_propagates E (s : Slakh2100.self)
    meta_yaml mix_midi_path midis_dir start_time clip_duration w
    meta pre stem post beats downbeats ts w2 e w3 :
  yaml_load E meta_yaml = Ok meta ->
  yaml_getitem meta "stems" = Ok (YMap (pre ++ stem :: post)) ->
  read_midi_beat E mix_midi_path = Ok (beats, downbeats) ->
  Slakh2100.load_tracks E s midis_dir pre []
    (log (CallReadMidiBeat mix_midi_path) (log (CallYamlLoad meta_yaml) w))
  = (Ok ts, w2) ->
  (forall rest, Slakh2100.load_tracks E s midis_dir (stem :: rest) ts w2
                = (Raise e, w3)) ->
  Slakh2100.load_target_data E s meta_yaml mix_midi_path midis_dir
    start_time clip_duration w = (Raise e, w3).
Proof.
  intros Hmeta Hstems Hbeat Hpre Hfail.
  unfold Slakh2100.load_target_data.
  unfold bind at 1, ext at 1. rewrite Hmeta.
  unfold bind at 1, ext at 1. rewrite Hbeat.
  unfold bind at 1, lift at 1. rewrite Hstems.
  unfold bind at 1, lift at 1. cbn [yaml_items].
  unfold bind at 1. rewrite load_tracks_app.
  unfold bind at 1. rewrite Hpre, Hfail. reflexivity.
Qed.

(** X10.  When no stem is marked as saved, an empty stems mapping included,
    [Slakh2100.load_target_data] reads no stem MIDI file: after the metadata
    and the beats, the dict with the window, the beats and an empty [tracks]
    list is returned as it is when there is no target transform, and is the
    argument of the target transform, whose outcome is the outcome of the
    call, when there is one. *)
Theorem no_saved_stem_gives_no_track E (s : Slakh2100.self)
    meta_yaml mix_midi_path midis_dir start_time clip_duration w
    meta stems beats downbeats :
  yaml_load E meta_yaml = Ok meta ->
  yaml_getitem meta "stems" = Ok (YMap stems) ->
  read_midi_beat E mix_midi_path = Ok (beats, downbeats) ->
  Forall (fun st : string * yaml =>
            exists v, yaml_getitem (snd st) "midi_saved" = Ok v /\
                      truthy v = false) stems ->
  Slakh2100.load_target_data E s meta_yaml mix_midi_path midis_dir
    start_time clip_duration w
  = match Slakh2100.target_transform s with
    | Some t =>
        (t (slakh_data start_time clip_duration beats downbeats []),
         log (CallTargetTransform
                (slakh_data start_time clip_duration beats downbeats []))
           (log (CallReadMidiBeat mix_midi_path)
              (log (CallYamlLoad meta_yaml) w)))
    | None =>
        (Ok (slakh_data start_time clip_duration beats downbeats []),
         log (CallReadMidiBeat mix_midi_path)
           (log (CallYamlLoad meta_yaml) w))
    end.
Proof.
  intros Hmeta Hstems Hbeat Hnone.
  unfold Slakh2100.load_target_data.
  unfold bind at 1, ext at 1. rewrite Hmeta.
  unfold bind at 1, ext at 1. rewrite Hbeat.
  unfold bind at 1, lift at 1. rewrite Hstems.
  unfold bind at 1, lift at 1. cbn [yaml_items].
  unfold bind at 1. rewrite (load_tracks_none_saved _ _ _ _ Hnone).
  destruct (Slakh2100.target_transform s) as [t |]; reflexivity.
Qed.

Lemma no_saved_stem_gives_no_track_witness :
  Slakh2100.load_target_data
    (with_meta Fixture.env0 Fixture.meta_none_saved) (Fixture.slakh0 None)
    Fixture.meta_yaml0 Fixture.mix_midi_path0 Fixture.midis_dir0 10 5
    Fixture.w0
  = (Ok (slakh_data 10 5 [0%float; 0.5%float] [0%float] []),
     log (CallReadMidiBeat Fixture.mix_midi_path0)
       (log (CallYamlLoad Fixture.meta_yaml0) Fixture.w0)) /\
  trace
    (snd (Slakh2100.load_target_data
            (with_meta Fixture.env0 Fixture.meta_none_saved)
            Fixture.slakh_override
            Fixture.meta_yaml0 Fixture.mix_midi_path0 Fixture.midis_dir0 10 5
            Fixture.w0))
  = [ CallYamlLoad Fixture.meta_yaml0;
      CallReadMidiBeat Fixture.mix_midi_path0;
      CallTargetTransform
        (slakh_data 10 5 [0%float; 0.5%float] [0%float] []) ].
Proof.
  assert (Hnone :
    Forall (fun st : string * yaml =>
              exists v, yaml_getitem (snd st) "midi_saved" = Ok v /\
                        truthy v = false)
      [ Fixture.S01; ("S03", Fixture.stem false "Drums" 0) ]).
  { repeat constructor; exists (YBool false); split; reflexivity. }
  split.
  - exact (no_saved_stem_gives_no_track
             (with_meta Fixture.env0 Fixture.meta_none_saved)
             (Fixture.slakh0 None) Fixture.meta_yaml0 Fixture.mix_midi_path0
             Fixture.midis_dir0 10 5 Fixture.w0 Fixture.meta_none_saved
             [ Fixture.S01; ("S03", Fixture.stem false "Drums" 0) ]
             [0%float; 0.5%float] [0%float]
             eq_refl eq_refl eq_refl Hnone).
  - rewrite (no_saved_stem_gives_no_track
               (with_meta Fixture.env0 Fixture.meta_none_saved)
               Fixture.slakh_override Fixture.meta_yaml0
               Fixture.mix_midi_path0 Fixture.midis_dir0 10 5 Fixture.w0
               Fixture.meta_none_saved
               [ Fixture.S01; ("S03", Fixture.stem false "Drums" 0) ]
               [0%float; 0.5%float] [0%float]
               eq_refl eq_refl eq_refl Hnone).
    reflexivity.
Defined.

(** X11.  Only the [midi_saved] flag skips a stem.  A stem marked as saved
    whose MIDI file cannot be read fails the whole call with the error of
    the read: the stems after it are not processed and the tracks built
    before it are not returned. *)
Theorem unreadable_stem_fails_target E (s : Slakh2100.self)
    meta_yaml mix_midi_path midis_dir start_time clip_duration w
    meta pre name stem_data post beats downbeats ts w2
    v inst_class is_drum plugin_name program_num e :
  yaml_load E meta_yaml = Ok meta ->
  yaml_getitem meta "stems" = Ok (YMap (pre ++ (name, stem_data) :: post)) ->
  read_midi_beat E mix_midi_path = Ok (beats, downbeats) ->
  Slakh2100.load_tracks E s midis_dir pre []
    (log (CallReadMidiBeat mix_midi_path) (log (CallYamlLoad meta_yaml) w))
  = (Ok ts, w2) ->
  yaml_getitem stem_data "midi_saved" = Ok v ->
  truthy v = true ->
  yaml_getitem stem_data "inst_class" = Ok inst_class ->
  yaml_getitem stem_data "is_drum" = Ok is_drum ->
  yaml_getitem stem_data "plugin_name" = Ok plugin_name ->
  yaml_getitem stem_data "program_num" = Ok program_num ->
  read_single_track_midi E (Path [midis_dir; name ++ ".mid"])
    (Slakh2100.extend_pedal s) = Raise e ->
  Slakh2100.load_target_data E s meta_yaml mix_midi_path midis_dir
    start_time clip_duration w
  = (Raise e,
     log (CallReadMidi (Path [midis_dir; name ++ ".mid"])
            (Slakh2100.extend_pedal s)) w2).
Proof.
  intros Hmeta Hstems Hbeat Hpre Hsaved Hv Hi Hd Hp Hn Hread.
  eapply stem_failure_propagates; try eassumption.
  intros rest. cbn [Slakh2100.load_tracks].
  unfold bind at 1, lift at 1. rewrite Hsaved, Hv. cbn [negb].
  unfold bind at 1, lift at 1. rewrite Hi.
  unfold bind at 1, lift at 1. rewrite Hd.
  unfold bind at 1, lift at 1. rewrite Hp.
  unfold bind at 1, lift at 1. rewrite Hn.
  unfold bind at 1, ext at 1. rewrite Hread. reflexivity.
Qed.

(** The stem S01 is marked as saved and its file is missing: the call
    raises although S00 was read and S02 could be. *)
Lemma unreadable_stem_fails_target_witness :
  fst (Slakh2100.load_target_data
         (with_meta Fixture.env0 Fixture.meta_unreadable)
         (Fixture.slakh0 None)
         Fixture.meta_yaml0 Fixture.mix_midi_path0 Fixture.midis_dir0 10 5
         Fixture.w0)
  = Raise (ExternalError "FileNotFoundError").
Proof.
  rewrite (unreadable_stem_fails_target
             (with_meta Fixture.env0 Fixture.meta_unreadable)
             (Fixture.slakh0 None) Fixture.meta_yaml0 Fixture.mix_midi_path0
             Fixture.midis_dir0 10 5 Fixture.w0 Fixture.meta_unreadable
             [ Fixture.S00 ] "S01" (Fixture.stem true "Bass" 33)
             [ Fixture.S02 ] _ _ _ _ _ _ _ _ _
             (ExternalError "FileNotFoundError")
             eq_refl eq_refl eq_refl eq_refl eq_refl eq_refl eq_refl
             eq_refl eq_refl eq_refl eq_refl).
  reflexivity.
Defined.

(** X12.  A stem whose metadata record has no [midi_saved] key is not
    skipped either: the call raises [KeyError] for that key, without
    reading the stem's MIDI file. *)
Theorem stem_without_flag_fails_target E (s : Slakh2100.self)
    meta_yaml mix_midi_path midis_dir start_time clip_duration w
    meta pre name items post beats downbeats ts w2 :
  yaml_load E meta_yaml = Ok meta ->
  yaml_getitem meta "stems"
  = Ok (YMap (pre ++ (name, YMap items) :: post)) ->
  read_midi_beat E mix_midi_path = Ok (beats, downbeats) ->
  Slakh2100.load_tracks E s midis_dir pre []
    (log (CallReadMidiBeat mix_midi_path) (log (CallYamlLoad meta_yaml) w))
  = (Ok ts, w2) ->
  assoc "midi_saved" items = None ->
  Slakh2100.load_target_data E s meta_yaml mix_midi_path midis_dir
    start_time clip_duration w
  = (Raise (KeyError "midi_saved"), w2).
Proof.
  intros Hmeta Hstems Hbeat Hpre Hnone.
  eapply stem_failure_propagates; try eassumption.
  intros rest. cbn [Slakh2100.load_tracks].
  unfold bind at 1, lift at 1. cbn [yaml_getitem]. rewrite Hnone.
  reflexivity.
Qed.

Lemma stem_without_flag_fails_target_witness :
  fst (Slakh2100.load_target_data
         (with_meta Fixture.env0 Fixture.meta_no_flag) (Fixture.slakh0 None)
         Fixture.meta_yaml0 Fixture.mix_midi_path0 Fixture.midis_dir0 10 5
         Fixture.w0)
  = Raise (KeyError "midi_saved").
Proof.
  rewrite (stem_without_flag_fails_target
             (with_meta Fixture.env0 Fixture.meta_no_flag)
             (Fixture.slakh0 None) Fixture.meta_yaml0 Fixture.mix_midi_path0
             Fixture.midis_dir0 10 5 Fixture.w0 Fixture.meta_no_flag
             [ Fixture.S00 ] "S01" [ ("inst_class", YStr "Bass") ]
             [ Fixture.S02 ] _ _ _ _
             eq_refl eq_refl eq_refl eq_refl eq_refl).
  reflexivity.
Defined.

(** ** The rows of the GuitarSet meta dict *)

Lemma durations_Ok E paths :
  forall w durations w',
    mapM (fun audio_path =>
            ext (CallGetDuration audio_path) (get_duration E audio_path))
         paths w = (Ok durations, w') ->
    Forall2 (fun path d => get_duration E path = Ok d) paths durations /\
    trace w' = (trace w ++ map CallGetDuration paths)%list.
Proof.
  induction paths as [| p paths IH]; intros w durations w' H; cbn [mapM] in H.
  - apply ret_Ok in H as [-> ->]. split; [constructor |].
    cbn. rewrite app_nil_r. reflexivity.
  - inv_run H. apply ret_Ok in H as [-> ->].
    apply IH in Hrun0 as [Hall Htrace]. split; [constructor; assumption |].
    rewrite Htrace. cbn [log trace map]. rewrite <- app_assoc. reflexivity.
Qed.

Lemma durations_fail E pre path post e :
  Forall (fun p => exists d, get_duration E p = Ok d) pre ->
  get_duration E path = Raise e ->
  forall w,
    mapM (fun audio_path =>
            ext (CallGetDuration audio_path) (get_duration E audio_path))
         (pre ++ path :: post) w
    = (Raise e,
       mkWorld (rng w)
         (trace w ++ map CallGetDuration (pre ++ [path]))).
Proof.
  intros Hpre Hfail. induction Hpre as [| p pre (d & Hd) _ IH]; intros w.
  - cbn [app mapM]. unfold bind at 1, ext at 1. rewrite Hfail. reflexivity.
  - cbn [app mapM]. unfold bind at 1, ext at 1. rewrite Hd.
    unfold bind at 1. rewrite IH. cbn [log rng trace map app].
    rewrite <- app_assoc. reflexivity.
Qed.

(** X13.  The meta dict that lines 80-98 of [GuitarSet.load_meta] build
    follows the table row by row: [audio_name] and [midi_name] are the
    columns [File Path] and [Midi_file_path]; every path is
    root/data/name for the name at the same index; every duration is the one
    reported for the audio path at the same index; and the only external
    calls are these duration queries, one per row, in row order. *)
Theorem meta_dict_follows_rows E root obj w md w' :
  GuitarSet.build_meta_dict E root obj w = (Ok md, w') ->
  exists df i j,
    obj = PFrame df /\
    index_of "File Path" (columns df) = Some i /\
    index_of "Midi_file_path" (columns df) = Some j /\
    GuitarSet.audio_name md = column df i /\
    GuitarSet.midi_name md = column df j /\
    GuitarSet.audio_path md
    = map (fun name => Path [root; "data"; name]) (GuitarSet.audio_name md) /\
    GuitarSet.midi_path md
    = map (fun name => Path [root; "data"; name]) (GuitarSet.midi_name md) /\
    Forall2 (fun path d => get_duration E path = Ok d)
      (GuitarSet.audio_path md) (GuitarSet.duration md) /\
    trace w'
    = (trace w ++ map CallGetDuration (GuitarSet.audio_path md))%list.
Proof.
  intros H. unfold GuitarSet.build_meta_dict in H. inv_run H.
  apply ret_Ok in H as [-> ->].
  destruct obj as [df | ser]; [| discriminate].
  cbn [pandas_getitem] in Hrun, Hrun0.
  destruct (index_of "File Path" (columns df)) as [i |] eqn:Hi;
    [| discriminate].
  destruct (index_of "Midi_file_path" (columns df)) as [j |] eqn:Hj;
    [| discriminate].
  injection Hrun as <-. injection Hrun0 as <-.
  apply durations_Ok in Hrun1 as [Hall Htrace].
  exists df, i, j. split; [reflexivity |].
  split; [exact Hi |]. split; [exact Hj |].
  repeat (split; [reflexivity |]).
  split; [exact Hall | exact Htrace].
Qed.

Lemma meta_dict_follows_rows_witness :
  let run :=
    GuitarSet.build_meta_dict Fixture.env0 "r" (PFrame Fixture.table0)
      Fixture.w0 in
  is_Ok run = true /\
  trace (snd run) = [ CallGetDuration "r/data/05_a.wav";
                      CallGetDuration "r/data/00_b.wav" ].
Proof.
  cbv zeta. split; [reflexivity |].
  destruct (GuitarSet.build_meta_dict Fixture.env0 "r" (PFrame Fixture.table0)
              Fixture.w0) as [[md | e] w1] eqn:H; [| discriminate].
  destruct (meta_dict_follows_rows Fixture.env0 "r" (PFrame Fixture.table0)
              Fixture.w0 md w1 H)
    as (df & i & j & Hdf & Hi & Hj & Hname & _ & Hpath & _ & _ & Htrace).
  injection Hdf as <-. injection Hi as <-.
  cbn [snd]. rewrite Htrace, Hpath, Hname. reflexivity.
Defined.

(** X14.  On a table in which every row has a cell in the columns
    [File Path] and [Midi_file_path], lines 80-98 of [GuitarSet.load_meta]
    stop at the first audio file whose duration cannot be read: the error of
    that query is raised, after the rows before it have been queried and
    none after it, and no partial meta dict is returned. *)
Theorem meta_dict_stops_at_unreadable_audio E root df w i j
    pre name post e :
  index_of "File Path" (columns df) = Some i ->
  index_of "Midi_file_path" (columns df) = Some j ->
  Forall (fun r => (i < length r)%nat /\ (j < length r)%nat) (rows df) ->
  column df i = (pre ++ name :: post)%list ->
  Forall (fun n => exists d, get_duration E (Path [root; "data"; n]) = Ok d)
    pre ->
  get_duration E (Path [root; "data"; name]) = Raise e ->
  GuitarSet.build_meta_dict E root (PFrame df) w
  = (Raise e,
     mkWorld (rng w)
       (trace w
        ++ map (fun n => CallGetDuration (Path [root; "data"; n]))
               (pre ++ [name]))).
Proof.
  intros Hi Hj _ Hcol Hpre Hfail.
  unfold GuitarSet.build_meta_dict.
  unfold bind at 1, lift at 1. cbn [pandas_getitem]. rewrite Hi.
  unfold bind at 1, lift at 1. rewrite Hj. cbn [values].
  unfold bind at 1. rewrite Hcol, map_app. cbn [map].
  rewrite (durations_fail E _ _ _ e).
  - do 3 f_equal. rewrite !map_app, map_map. reflexivity.
  - apply Forall_map. exact Hpre.
  - exact Hfail.
Qed.

(** The second row of the fixture table names the audio file whose
    duration cannot be read. *)
Lemma meta_dict_stops_at_unreadable_audio_witness :
  GuitarSet.build_meta_dict Fixture.env_no_duration "r"
    (PFrame Fixture.table0) Fixture.w0
  = (Raise (ExternalError "NoBackendError"),
     mkWorld 0 [ CallGetDuration "r/data/05_a.wav";
                 CallGetDuration "r/data/00_b.wav" ]).
Proof.
  apply (meta_dict_stops_at_unreadable_audio Fixture.env_no_duration "r"
           Fixture.table0 Fixture.w0 0 1 [ "05_a.wav" ] "00_b.wav" []);
    try reflexivity.
  - repeat constructor.
  - repeat constructor. exists 30%float. reflexivity.
Defined.

(** X15.  [GuitarSet.__init__] never returns an instance: for every root,
    split and other arguments it raises, and the only external call made is
    the reading of root/metadata.csv; no audio file is queried. *)
Theorem guitarset_init_always_raises E root split sr crop transform
    load_target extend_pedal target_transform w :
  exists e,
    GuitarSet.__init__ E root split sr crop transform load_target
      extend_pedal target_transform w
    = (Raise e, log (CallReadCsv (Path [root; "metadata.csv"])) w).
Proof.
  unfold GuitarSet.__init__, GuitarSet.load_meta.
  unfold bind at 1. unfold bind at 1, ext at 1.
  destruct (read_csv E (Path [root; "metadata.csv"])) as [df | e];
    [| exists e; reflexivity].
  unfold bind at 1, lift at 1. cbn [pandas_getitem].
  destruct (index_of "File Path" (columns df)) as [i |];
    [| eexists; reflexivity].
  unfold bind at 1, lift at 1. eexists. reflexivity.
Qed.

(** ** Building a Slakh2100 instance *)

Lemma ascii_compare_Lt_trans a b c :
  Ascii.compare a b = Lt -> Ascii.compare b c = Lt -> Ascii.compare a c = Lt.
Proof.
  unfold Ascii.compare. rewrite !N.compare_lt_iff. apply N.lt_trans.
Qed.

Lemma string_compare_Lt_trans s1 :
  forall s2 s3,
    String.compare s1 s2 = Lt -> String.compare s2 s3 = Lt ->
    String.compare s1 s3 = Lt.
Proof.
  induction s1 as [| a s1 IH]; intros [| b s2] [| c s3]; cbn;
    try discriminate; try reflexivity.
  destruct (Ascii.compare a b) eqn:Hab; try discriminate;
    destruct (Ascii.compare b c) eqn:Hbc; try discriminate; intros H12 H23.
  - apply Ascii.compare_eq_iff in Hab, Hbc. subst b c.
    replace (Ascii.compare a a) with Eq
      by (symmetry; unfold Ascii.compare; apply N.compare_refl).
    eapply IH; eassumption.
  - apply Ascii.compare_eq_iff in Hab. subst b. rewrite Hbc. reflexivity.
  - apply Ascii.compare_eq_iff in Hbc. subst c. rewrite Hab. reflexivity.
  - rewrite (ascii_compare_Lt_trans a b c Hab Hbc). reflexivity.
Qed.

#[global] Instance str_le_transitive : Transitive str_le.
Proof.
  intros x y z. unfold str_le, String.leb.
  destruct (String.compare x y) eqn:Hxy; try discriminate;
    destruct (String.compare y z) eqn:Hyz; try discriminate; intros _ _.
  - apply String.compare_eq_iff in Hxy. subst y. rewrite Hyz. reflexivity.
  - apply String.compare_eq_iff in Hxy. subst y. rewrite Hyz. reflexivity.
  - apply String.compare_eq_iff in Hyz. subst z. rewrite Hxy. reflexivity.
  - rewrite (string_compare_Lt_trans x y z Hxy Hyz). reflexivity.
Qed.

#[global] Instance str_le_total : Total str_le.
Proof. intros x y. apply String.leb_total. Qed.

#[global] Instance str_le_antisymm : AntiSymm (=) str_le.
Proof. intros x y. apply String.leb_antisym. Qed.

(** X16.  The items of a [Slakh2100] instance are the entries of the split
    directory in sorted order: [meta_dict["audio_name"]] is a permutation of
    the listing of root/split, ascending in the order of Python strings, so
    [__len__()] is the number of entries; a directory that cannot be listed
    fails the construction. *)
Theorem slakh_init_sorted_listing FS root split sr crop transform
    load_target extend_pedal target_transform s :
  Slakh2100.__init__ FS root split sr crop transform load_target
    extend_pedal target_transform = Ok s ->
  exists names,
    listdir FS (Path [root; split]) = Ok names /\
    Slakh2100.audio_name s ≡ₚ names /\
    Sorted str_le (Slakh2100.audio_name s) /\
    Slakh2100.__len__ s = length names /\
    Slakh2100.root s = root /\ Slakh2100.split s = split.
Proof.
  unfold Slakh2100.__init__. intros H.
  destruct (listdir FS (Path [root; split])) as [names | e];
    [| discriminate].
  injection H as <-. exists names. cbn.
  split; [reflexivity |].
  split; [apply merge_sort_Permutation |].
  split; [apply (Sorted_merge_sort str_le) |].
  split; [| split; reflexivity].
  unfold Slakh2100.__len__. cbn.
  apply Permutation_length, merge_sort_Permutation.
Qed.

Lemma slakh_init_sorted_listing_witness :
  exists s,
    Slakh2100.__init__ Fixture.fs0 "r" "train" 44100 None None true true None
    = Ok s /\
    Slakh2100.audio_name s = [ "Track00001"; "Track00002"; "Track00003" ] /\
    Sorted str_le (Slakh2100.audio_name s).
Proof.
  eexists. split; [reflexivity |]. split; [reflexivity |].
  destruct (slakh_init_sorted_listing Fixture.fs0 "r" "train" 44100 None
              None true true None _ eq_refl)
    as (names & _ & _ & Hsorted & _).
  exact Hsorted.
Defined.

(** X17.  The instance does not depend on the order in which the
    directory is listed: two listings with the same entries give the same
    instance, so an index denotes the same track on every machine. *)
Theorem slakh_init_listing_order FS1 FS2 root split sr crop transform
    load_target extend_pedal target_transform names1 names2 :
  listdir FS1 (Path [root; split]) = Ok names1 ->
  listdir FS2 (Path [root; split]) = Ok names2 ->
  names1 ≡ₚ names2 ->
  Slakh2100.__init__ FS1 root split sr crop transform load_target
    extend_pedal target_transform
  = Slakh2100.__init__ FS2 root split sr crop transform load_target
      extend_pedal target_transform.
Proof.
  intros H1 H2 Hperm. unfold Slakh2100.__init__. rewrite H1, H2.
  do 2 f_equal. unfold sorted.
  apply (Sorted_unique str_le).
  - apply (Sorted_merge_sort str_le).
  - apply (Sorted_merge_sort str_le).
  - rewrite !merge_sort_Permutation. exact Hperm.
Qed.

Lemma slakh_init_listing_order_witness :
  Slakh2100.__init__ Fixture.fs0 "r" "train" 44100 None None true true None
  = Slakh2100.__init__ Fixture.fs1 "r" "train" 44100 None None true true
      None.
Proof.
  apply (slakh_init_listing_order Fixture.fs0 Fixture.fs1 "r" "train" 44100
           None None true true None
           [ "Track00003"; "Track00001"; "Track00002" ]
           [ "Track00001"; "Track00003"; "Track00002" ] eq_refl eq_refl).
  apply perm_swap.
Defined.

Lemma string_app_assoc (x y z : string) :
  ((x ++ y) ++ z)%string = (x ++ y ++ z)%string.
Proof.
  induction x as [| a x IH]; [reflexivity |].
  change (String a ((x ++ y) ++ z) = String a (x ++ y ++ z))%string.
  f_equal. exact IH.
Qed.

(** A path built from a prefix is the path built from its segments. *)
Lemma Path_nested a b c d : Path [Path [a; b; c]; d] = Path [a; b; c; d].
Proof.
  unfold Path. cbn [String.concat].
  rewrite !string_app_assoc. reflexivity.
Qed.

Lemma fold_append_dir (s : Slakh2100.self) dirs :
  forall meta,
    fold_left (Slakh2100.append_dir s) dirs meta
    = Slakh2100.mkMetaLists
        (Slakh2100.meta_audio_name meta ++ map (fun _ => "mix.flac") dirs)
        (Slakh2100.meta_audio_path meta
         ++ map (fun dir =>
                   Path [Slakh2100.root s; Slakh2100.split s; dir;
                         "mix.flac"]) dirs)
        (Slakh2100.meta_midi_name meta ++ map (fun _ => "all_src.mid") dirs)
        (Slakh2100.meta_midi_path meta
         ++ map (fun dir =>
                   Path [Slakh2100.root s; Slakh2100.split s; dir;
                         "all_src.mid"]) dirs).
Proof.
  induction dirs as [| dir dirs IH]; intros meta; cbn [fold_left map].
  - rewrite !app_nil_r. destruct meta. reflexivity.
  - rewrite IH. unfold Slakh2100.append_dir. cbn.
    rewrite <- !app_assoc. reflexivity.
Qed.

(** X18.  [Slakh2100.load_meta] returns four lists with one entry per
    sub-directory of root/split, in the order of the walk: the names are the
    constants [mix.flac] and [all_src.mid], and the paths at an index are
    the audio path and the mix MIDI path that [__getitem__] builds for that
    directory. *)
Theorem slakh_load_meta_lists FS (s : Slakh2100.self) meta :
  Slakh2100.load_meta FS s = Ok meta ->
  exists dirs,
    walk_dirnames FS (Path [Slakh2100.root s; Slakh2100.split s]) = Ok dirs /\
    Slakh2100.meta_audio_name meta = map (fun _ => "mix.flac") dirs /\
    Slakh2100.meta_midi_name meta = map (fun _ => "all_src.mid") dirs /\
    Slakh2100.meta_audio_path meta
    = map (fun dir =>
             Path [Path [Slakh2100.root s; Slakh2100.split s; dir];
                   "mix.flac"]) dirs /\
    Slakh2100.meta_midi_path meta
    = map (fun dir =>
             Path [Path [Slakh2100.root s; Slakh2100.split s; dir];
                   "all_src.mid"]) dirs.
Proof.
  unfold Slakh2100.load_meta. intros H.
  destruct (walk_dirnames FS (Path [Slakh2100.root s; Slakh2100.split s]))
    as [dirs | e]; [| discriminate].
  injection H as <-. exists dirs. split; [reflexivity |].
  rewrite fold_append_dir. cbn.
  repeat split; try reflexivity;
    apply map_ext; intros dir; symmetry; apply Path_nested.
Qed.

Lemma slakh_load_meta_lists_witness :
  exists meta,
    Slakh2100.load_meta Fixture.fs0 (Fixture.slakh0 None) = Ok meta /\
    Slakh2100.meta_audio_path meta
    = [ "r/train/Track00003/mix.flac"; "r/train/Track00001/mix.flac";
        "r/train/Track00002/mix.flac" ].
Proof.
  eexists. split; [reflexivity |].
  destruct (slakh_load_meta_lists Fixture.fs0 (Fixture.slakh0 None) _ eq_refl)
    as (dirs & Hdirs & _ & _ & Hpath & _).
  injection Hdirs as <-. rewrite Hpath. reflexivity.
Defined.
